(** * Carpay Collect: the sequence API client ([src/lib/api.ts])

    A shallow embedding of the fetch wrapper of the dashboard and of the
    two response normalizers, together with the properties the
    specification states about them.

    The development is organised as follows.
    - [Js]: the JavaScript values a response body can evaluate to, and the
      handful of language operations the client applies to them
      ([typeof], truthiness, property reads, [in], [Array.isArray],
      [String(...)]).
    - [Effects]: promises as a state-and-exception monad over the log of
      requests handed to [fetch].
    - [View]: the helpers of the pages and of the [ui] components that
      carry logic of their own (class names, the queue filter, durations,
      the route, the grouping of a timeline, the open rows of a log).
    - [Client]: [api.ts] itself, definition by definition, the hooks and
      actions of the pages that call it, a sample environment to run
      them in, and the theorems.
    - [ViewProperties]: the theorems about [View]. *)

From Stdlib Require Import String Ascii List Bool NArith Lia DecimalString.
From Stdlib Require Import Floats.SpecFloat.
From Stdlib Require Import ZArith Permutation.
Import ListNotations.
Open Scope list_scope.
Open Scope string_scope.

Set Implicit Arguments.
Set Warnings "-register-all".

(* ================================================================== *)
(** ** JavaScript values *)
(* ================================================================== *)

Module Js.

(** The values that reach the client: what [JSON.parse] can build, the raw
    text [parseJson] falls back to, and [undefined] (an omitted argument, a
    missing property).  A number is an IEEE 754 binary64, as in the
    language; an object is its list of own properties, in insertion order,
    each key occurring once where the object was built by [JSON.parse]. *)
Inductive value : Type :=
| JUndefined
| JNull
| JBool (b : bool)
| JNumber (n : spec_float)
| JString (s : string)
| JArray (elements : list value)
| JObject (properties : list (string * value)).

(** [typeof v]. *)
Definition typeof (v : value) : string :=
  match v with
  | JUndefined => "undefined"
  | JNull => "object"
  | JBool _ => "boolean"
  | JNumber _ => "number"
  | JString _ => "string"
  | JArray _ => "object"
  | JObject _ => "object"
  end.

(** ToBoolean: what [v && ...] and [!v] test. *)
Definition truthy (v : value) : bool :=
  match v with
  | JUndefined | JNull => false
  | JBool b => b
  | JNumber (S754_zero _) | JNumber S754_nan => false
  | JNumber _ => true
  | JString s => negb (s =? "")
  | JArray _ | JObject _ => true
  end.

(** [Array.isArray(v)]. *)
Definition isArray (v : value) : bool :=
  match v with
  | JArray _ => true
  | _ => false
  end.

(** [v == null]: true of [null] and [undefined] only. *)
Definition nullish (v : value) : bool :=
  match v with
  | JUndefined | JNull => true
  | _ => false
  end.

(** Own-property lookup in a property list. *)
Fixpoint own (k : string) (o : list (string * value)) : option value :=
  match o with
  | [] => None
  | (k', v) :: rest => if k' =? k then Some v else own k rest
  end.

(** The property read [v.k], for the four names the client reads
    ([enrollments], [data], [events], [message]).  None of them is defined
    on [Object.prototype], [Array.prototype] or [String.prototype], and an
    array's own keys are its indices and [length], so the read finds an own
    property of an object and is [undefined] everywhere else.  A read on
    [null] or [undefined] would throw; every read in [api.ts] sits behind a
    truthiness test of the same value, so that case is never evaluated. *)
Definition Get (v : value) (k : string) : value :=
  match v with
  | JObject o =>
      match own k o with
      | Some x => x
      | None => JUndefined
      end
  | _ => JUndefined
  end.

(** [k in v], under the same proviso on [k]; the client evaluates it only
    after [typeof v === "object" && v]. *)
Definition has_property (k : string) (v : value) : bool :=
  match v with
  | JObject o =>
      match own k o with
      | Some _ => true
      | None => false
      end
  | _ => false
  end.

(** What JavaScript code can throw here.  [ApiError] is the client's own
    class; the other two are raised by the language ([String(...)] on an
    object that has no usable [toString]/[valueOf]; a rejected [fetch]) and
    by [JSON.parse].  Their message texts are engine-defined. *)
Record ApiError : Type := mkApiError {
  message : string;
  status : N;
  payload : value
}.

Inductive Thrown : Type :=
| ThrowApiError (e : ApiError)
| ThrowTypeError (detail : string)
| ThrowSyntaxError (detail : string).

Definition is_ApiError (t : Thrown) : bool :=
  match t with
  | ThrowApiError _ => true
  | _ => false
  end.

(** The result of evaluating something that may throw.  Inside an [async]
    function a throw is a rejection of the returned promise, so one type
    serves both. *)
Inductive Outcome (A : Type) : Type :=
| Resolved (a : A)
| Rejected (reason : Thrown).

Arguments Resolved {A} a.
Arguments Rejected {A} reason.

(** [Array.prototype.join] with the separator [","], over the conversion
    [convert] of one element: [undefined] and [null] elements give the
    empty string, and the first conversion that throws ends the join. *)
Definition join (convert : value -> Outcome string)
  : list value -> Outcome string :=
  fix join (l : list value) : Outcome string :=
    match l with
    | [] => Resolved ""
    | x :: rest =>
        match (if nullish x then Resolved "" else convert x) with
        | Rejected e => Rejected e
        | Resolved s =>
            match rest with
            | [] => Resolved s
            | _ :: _ =>
                match join rest with
                | Rejected e => Rejected e
                | Resolved r => Resolved (s ++ "," ++ r)
                end
            end
        end
    end.

(** Induction on values, with the elements of an array and the members of
    an object as subterms. *)
Fixpoint value_induction (P : value -> Prop)
  (PUndefined : P JUndefined)
  (PNull : P JNull)
  (PBool : forall b, P (JBool b))
  (PNumber : forall n, P (JNumber n))
  (PString : forall s, P (JString s))
  (PArray : forall l, Forall P l -> P (JArray l))
  (PObject : forall o, Forall (fun kv => P (snd kv)) o -> P (JObject o))
  (v : value) {struct v} : P v :=
  let rec := value_induction PUndefined PNull PBool PNumber PString
               PArray PObject in
  match v with
  | JUndefined => PUndefined
  | JNull => PNull
  | JBool b => PBool b
  | JNumber n => PNumber n
  | JString s => PString s
  | JArray l =>
      PArray l
        ((fix all (l : list value) : Forall P l :=
            match l with
            | [] => Forall_nil P
            | x :: rest => Forall_cons x (rec x) (all rest)
            end) l)
  | JObject o =>
      PObject o
        ((fix all (o : list (string * value))
            : Forall (fun kv => P (snd kv)) o :=
            match o with
            | [] => Forall_nil _
            | kv :: rest =>
                Forall_cons (P := fun kv => P (snd kv)) kv
                            (rec (snd kv)) (all rest)
            end) o)
  end.

Section Coercion.

(** Number::toString, the shortest decimal that reads back as the same
    binary64; it is a total function of the number and is left abstract. *)
Variable Number_toString : spec_float -> string.

Definition cannot_convert : Thrown :=
  ThrowTypeError "Cannot convert object to primitive value".

(** [String(v)], that is ToString (ECMA-262, 7.1.17).
    - Primitives convert directly.
    - An array goes through [Array.prototype.toString], hence [join]: the
      elements' strings separated by commas, [undefined] and [null]
      elements contributing the empty string.
    - A plain object goes through OrdinaryToPrimitive with hint string,
      which reads [toString] and then [valueOf] and calls the first that is
      callable and returns a primitive.  Without an own [toString] the
      inherited one answers ["[object Object]"].  With an own [toString]
      (never callable in a value built from JSON), the method is skipped;
      [valueOf] is then an own non-callable property, or the inherited
      method, which returns the object itself; neither gives a primitive
      and the conversion throws a TypeError. *)
Fixpoint ToString (v : value) : Outcome string :=
  match v with
  | JUndefined => Resolved "undefined"
  | JNull => Resolved "null"
  | JBool true => Resolved "true"
  | JBool false => Resolved "false"
  | JNumber n => Resolved (Number_toString n)
  | JString s => Resolved s
  | JArray l => join ToString l
  | JObject o =>
      match own "toString" o with
      | Some _ => Rejected cannot_convert
      | None => Resolved "[object Object]"
      end
  end.

End Coercion.

End Js.

(* ================================================================== *)
(** ** Promises and the transport *)
(* ================================================================== *)

Module Effects.
Import Js.

(** The second argument of [fetch], restricted to the members the client
    sets.  [None] is an absent member; for [method] and [body] a member
    that is present with the value [undefined] is the same thing to
    [fetch], and no caller in [api.ts] passes a [headers] member. *)
Record RequestInit : Type := mkRequestInit {
  init_method : option string;
  init_headers : option (list (string * string));
  init_body : option string
}.

(** One call of [fetch(url, init)]. *)
Record FetchCall : Type := mkFetchCall {
  call_url : string;
  call_init : RequestInit
}.

(** A [Response], with its body already read as text. *)
Record Response : Type := mkResponse {
  resp_status : N;
  resp_text : string
}.

(** [response.ok]: the status is in the range 200-299. *)
Definition ok (r : Response) : bool :=
  (200 <=? resp_status r)%N && (resp_status r <=? 299)%N.

(** What the transport does with one call: it answers with a response, or
    the promise rejects (a network failure rejects [fetch] with a
    TypeError; a body that cannot be read rejects [response.text()], which
    [request] awaits right after and before any other step, so both are
    one case here). *)
Inductive FetchResult : Type :=
| Responded (r : Response)
| Failed (reason : Thrown).

(** The observable state is the log of the calls handed to [fetch], oldest
    first. *)
Definition World : Type := list FetchCall.

(** An asynchronous computation: run from a world, it settles and leaves
    a world. *)
Definition Async (A : Type) : Type := World -> Outcome A * World.

Definition ret {A : Type} (a : A) : Async A :=
  fun w => (Resolved a, w).

Definition throw {A : Type} (e : Thrown) : Async A :=
  fun w => (Rejected e, w).

Definition bind {A B : Type} (m : Async A) (k : A -> Async B) : Async B :=
  fun w =>
    match m w with
    | (Resolved a, w') => k a w'
    | (Rejected e, w') => (Rejected e, w')
    end.

(** A synchronous call that may throw, made from an [async] function. *)
Definition lift {A : Type} (o : Outcome A) : Async A :=
  fun w => (o, w).

(** [try { body } catch { handler }]. *)
Definition try_catch {A : Type} (body : Async A) (handler : Thrown -> Async A)
  : Async A :=
  fun w =>
    match body w with
    | (Resolved a, w') => (Resolved a, w')
    | (Rejected e, w') => handler e w'
    end.

Definition fmap {A B : Type} (f : A -> B) (m : Async A) : Async B :=
  bind m (fun a => ret (f a)).

Module Notations.
Notation "x <- m ;; k" := (bind m (fun x => k))
  (at level 61, m at next level, right associativity).
End Notations.

End Effects.

(* ================================================================== *)
(** ** Helpers of the pages and components *)
(* ================================================================== *)

Module View.
Import Js.

(** *** [cx] of the pages, [cn] of [components/ui]

    One function under two names:
    [classes.filter(Boolean).join(" ")]. *)

(** An argument of type [string | null | undefined | false]. *)
Inductive ClassValue : Type :=
| ClassName (name : string)
| ClassNull
| ClassUndefined
| ClassFalse.

(** [Boolean(c)]: of these values only a non-empty string is truthy. *)
Definition Boolean (c : ClassValue) : bool :=
  match c with
  | ClassName name => negb (name =? "")
  | _ => false
  end.

(** The string [join] prints for an element; [null] and [undefined] print
    as nothing. *)
Definition class_text (c : ClassValue) : string :=
  match c with
  | ClassName name => name
  | ClassNull | ClassUndefined => ""
  | ClassFalse => "false"
  end.

Definition cx (classes : list ClassValue) : string :=
  String.concat " " (map class_text (filter Boolean classes)).

(** *** The work queue of the mock dashboard *)

Inductive QueueStatus : Type :=
| Escalation
| PromiseToPay
| Managed.

Record QueueRow : Type := mkQueueRow {
  row_id : string;
  row_status : QueueStatus;
  row_name : string;
  row_vehicleOrNote : string;
  row_amountDue : string;
  row_daysLate : string
}.

Inductive QueueMode : Type :=
| ModeAll
| ModeEscalations
| ModePromises.

Definition is_escalation (r : QueueRow) : bool :=
  match row_status r with Escalation => true | _ => false end.

Definition is_promise (r : QueueRow) : bool :=
  match row_status r with PromiseToPay => true | _ => false end.

(** [function applyQueueMode(rows, mode)]; [rows.slice()] is a copy with
    the same elements in the same order. *)
Definition applyQueueMode (rows : list QueueRow) (mode : QueueMode)
  : list QueueRow :=
  match mode with
  | ModeEscalations => filter is_escalation rows
  | ModePromises => filter is_promise rows
  | ModeAll => rows
  end.

(** *** [fmtDuration]

    The argument is a number of seconds; it is modelled for the integers,
    which is what every caller passes.  On integers [Math.floor(s / 60)]
    is the floored quotient and [s % 60] the remainder with the sign of
    [s]. *)
Definition Z_text (z : Z) : string :=
  NilZero.string_of_int (Z.to_int z).

Definition fmtDuration (seconds : option Z) : string :=
  match seconds with
  | None => "—"
  | Some seconds =>
      let m := (seconds / 60)%Z in
      let s := Z.rem seconds 60 in
      if (0 <? m)%Z then Z_text m ++ "m " ++ Z_text s ++ "s"
      else Z_text s ++ "s"
  end.

(** *** The route of [App] *)

Inductive SidebarKey : Type :=
| dashboard
| customers
| escalations
| reports
| settings.

(** [{ tab, enrollmentId }] ([customerId] in the mock variant). *)
Record Route : Type := mkRoute {
  tab : SidebarKey;
  enrollmentId : option string
}.

Definition initial_route : Route := mkRoute dashboard None.

(** [route.enrollmentId ? ... : ...]: [null] and the empty string are
    falsy. *)
Definition detail_of (r : Route) : option string :=
  match enrollmentId r with
  | Some id => if id =? "" then None else Some id
  | None => None
  end.

(** [const active = route.enrollmentId ? "customers" : route.tab]. *)
Definition active (r : Route) : SidebarKey :=
  match detail_of r with
  | Some _ => customers
  | None => tab r
  end.

(** The page [App] renders inside the shell. *)
Inductive Page : Type :=
| CustomerDetailPage (id : string)
| CustomersPage
| DashboardPage.

Definition page (r : Route) : Page :=
  match detail_of r with
  | Some id => CustomerDetailPage id
  | None =>
      match tab r with
      | customers => CustomersPage
      | _ => DashboardPage
      end
  end.

(** What the user can do: pick a sidebar entry, open a row of the page
    shown, go back from the detail page. *)
Inductive Click : Type :=
| Navigate (k : SidebarKey)
| OpenCustomer (id : string)
| Back.

(** The handlers [App] passes down.  A handler exists only on the page
    that receives it: there is no row to open on the detail page and no
    back button elsewhere. *)
Definition handle (r : Route) (c : Click) : Route :=
  match c, page r with
  | Navigate k, _ => mkRoute k None
  | OpenCustomer id, CustomersPage => mkRoute customers (Some id)
  | OpenCustomer id, DashboardPage => mkRoute dashboard (Some id)
  | OpenCustomer _, CustomerDetailPage _ => r
  | Back, CustomerDetailPage _ => mkRoute (tab r) None
  | Back, _ => r
  end.

(** *** Insertion-ordered maps

    A [Map], and an object used as one: [set] replaces the value of a key
    that is there, in its place, and appends a key that is not. *)
Fixpoint lookup {V : Type} (k : string) (m : list (string * V)) : option V :=
  match m with
  | [] => None
  | (k', v) :: rest => if k' =? k then Some v else lookup k rest
  end.

Fixpoint upsert {V : Type} (k : string) (v : V) (m : list (string * V))
  : list (string * V) :=
  match m with
  | [] => [(k, v)]
  | (k', v') :: rest =>
      if k' =? k then (k, v) :: rest else (k', v') :: upsert k v rest
  end.

(** *** The timeline of [TimelineList] *)

Inductive Channel : Type :=
| sms
| email
| push
| call.

Inductive CallOutcome : Type :=
| payment_initiated_sms
| intent_date_collected
| follow_up_requested
| stated_payment_already_made
| opt_out_requested
| transfer_to_live_agent
| wrong_number
| unclear_follow_up_scheduled
| language_handoff
| unanswered
| id_failed.

Inductive TransferReason : Type :=
| make_payment
| sensitive_case
| borrower_requested_live_agent
| vague_long_term_response
| language_escalation
| failed_identity_verification
| undefined_transfer.

(** [TimelineEvent] of [types/sequence.ts], a union tagged by [type]. *)
Inductive TimelineEvent : Type :=
| TOUCH_SENT (channel : Channel) (day : spec_float)
             (templateId : option string) (sentAt : string)
| CALL_COMPLETED (day : spec_float) (startedAt endedAt : string)
                 (callOutcome : CallOutcome)
                 (transferReason : option TransferReason)
                 (intentDate notes : option string)
| PAYMENT_POSTED (postedAt : string) (amount : spec_float)
| ESCALATED (at_ : string) (reason : string)
| SUPPRESSED (at_ : string) (reason : string).

(** [function eventTimestamp(event)]. *)
Definition eventTimestamp (event : TimelineEvent) : string :=
  match event with
  | TOUCH_SENT _ _ _ sentAt => sentAt
  | CALL_COMPLETED _ _ endedAt _ _ _ _ => endedAt
  | PAYMENT_POSTED postedAt _ => postedAt
  | ESCALATED at_ _ => at_
  | SUPPRESSED at_ _ => at_
  end.

(** [function eventDay(event)]; [None] is [null]. *)
Definition eventDay (event : TimelineEvent) : option spec_float :=
  match event with
  | TOUCH_SENT _ day _ _ => Some day
  | CALL_COMPLETED day _ _ _ _ _ _ => Some day
  | _ => None
  end.

Section Timeline.

Variable Number_toString : spec_float -> string.

(** [day == null ? "System Events" : `Day ${day}`]. *)
Definition dayLabel (event : TimelineEvent) : string :=
  match eventDay event with
  | None => "System Events"
  | Some day => "Day " ++ Number_toString day
  end.

(** The body of [sorted.forEach]:
    [const arr = map.get(key) ?? []; arr.push(event); map.set(key, arr)]. *)
Definition addEvent (map : list (string * list TimelineEvent))
  (event : TimelineEvent) : list (string * list TimelineEvent) :=
  let key := dayLabel event in
  let arr :=
    match lookup key map with
    | Some arr => arr
    | None => []
    end in
  upsert key (arr ++ [event])%list map.

(** The map [TimelineList] builds from the sorted events. *)
Definition groupEvents (sorted : list TimelineEvent)
  : list (string * list TimelineEvent) :=
  fold_left addEvent sorted [].

(** Whether an event goes under a label, and the events of a map read
    entry after entry: what the page shows, top to bottom. *)
Definition on_day (k : string) (event : TimelineEvent) : bool :=
  dayLabel event =? k.

Definition flatten (m : list (string * list TimelineEvent))
  : list TimelineEvent :=
  concat (map snd m).

End Timeline.

(** *** The open rows of [ActivityLog] *)

Section ActivityLog.

(** [openById] is a plain object, so [openById[id]] also finds what
    [Object.prototype] defines ([constructor], [toString], ...):
    [inherited id] is the truthiness of that member, [false] for a name
    that is not there. *)
Variable inherited : string -> bool.

(** The truthiness of [openById[id]]. *)
Definition isOpen (openById : list (string * bool)) (id : string) : bool :=
  match lookup id openById with
  | Some b => b
  | None => inherited id
  end.

(** [setOpenById((prev) => ({ ...prev, [id]: !prev[id] }))]. *)
Definition toggle (id : string) (prev : list (string * bool))
  : list (string * bool) :=
  upsert id (negb (isOpen prev id)) prev.

End ActivityLog.

End View.

(* ================================================================== *)
(** ** The client: [src/lib/api.ts] *)
(* ================================================================== *)

Module Client.
Import Js Effects Effects.Notations.

(** [EnrollmentStatus] of [types/sequence.ts]. *)
Inductive EnrollmentStatus : Type :=
| ACTIVE
| PAID_EXIT
| ESCALATED
| SUPPRESSED.

Definition EnrollmentStatus_text (s : EnrollmentStatus) : string :=
  match s with
  | ACTIVE => "ACTIVE"
  | PAID_EXIT => "PAID_EXIT"
  | ESCALATED => "ESCALATED"
  | SUPPRESSED => "SUPPRESSED"
  end.

(** [TimelineResponse] of [types/sequence.ts]. *)
Record TimelineResponse : Type := mkTimelineResponse {
  events : value
}.

(** [s.replace(/\/$/, "")]: the pattern matches one slash at the very end
    of the input, so at most the last character is removed. *)
Fixpoint replace_trailing_slash (s : string) : string :=
  match s with
  | EmptyString => EmptyString
  | String c EmptyString => if (c =? "/")%char then EmptyString else s
  | String c rest => String c (replace_trailing_slash rest)
  end.

(** Assignment of one property in an object literal or a spread: an
    existing key keeps its place and takes the new value, a new key goes
    last. *)
Fixpoint assign {V : Type} (k : string) (v : V) (o : list (string * V))
  : list (string * V) :=
  match o with
  | [] => [(k, v)]
  | (k', v') :: rest =>
      if k' =? k then (k, v) :: rest else (k', v') :: assign k v rest
  end.

(** [{ ...base, ...extra }]. *)
Definition spread {V : Type} (base extra : list (string * V))
  : list (string * V) :=
  fold_left (fun acc kv => assign (fst kv) (snd kv) acc) extra base.

(** The decimal text of a status code, as a template literal prints it. *)
Definition decimal (n : N) : string :=
  NilZero.string_of_uint (N.to_uint n).

(** *** A sample environment

    An instance of what the client is parameterized by, used to run the
    code on concrete exchanges: a few body texts with the values
    [JSON.parse] gives them, and transports that answer every call alike.
    The theorems are proved for every environment. *)

Definition quote : string := String "034"%char EmptyString.

(** [{"message":"not found"}] *)
Definition text_not_found : string :=
  "{" ++ quote ++ "message" ++ quote ++ ":"
      ++ quote ++ "not found" ++ quote ++ "}".

(** [{"message":{"toString":null}}] *)
Definition text_message_object : string :=
  "{" ++ quote ++ "message" ++ quote ++ ":{"
      ++ quote ++ "toString" ++ quote ++ ":null}}".

(** [{"enrollments":[true],"data":[false]}] *)
Definition text_both_fields : string :=
  "{" ++ quote ++ "enrollments" ++ quote ++ ":[true],"
      ++ quote ++ "data" ++ quote ++ ":[false]}".

(** [{"data":[true]}] *)
Definition text_data_field : string :=
  "{" ++ quote ++ "data" ++ quote ++ ":[true]}".

(** [{"foo":[true]}] *)
Definition text_foo_field : string :=
  "{" ++ quote ++ "foo" ++ quote ++ ":[true]}".

(** [{"events":[]}] *)
Definition text_no_events : string :=
  "{" ++ quote ++ "events" ++ quote ++ ":[]}".

(** [{"status":"SUPPRESSED"}] *)
Definition text_suppressed : string :=
  "{" ++ quote ++ "status" ++ quote ++ ":"
      ++ quote ++ "SUPPRESSED" ++ quote ++ "}".

Definition sample_table : list (string * value) :=
  [ (text_not_found, JObject [("message", JString "not found")]);
    (text_message_object,
       JObject [("message", JObject [("toString", JNull)])]);
    (text_both_fields,
       JObject [("enrollments", JArray [JBool true]);
                ("data", JArray [JBool false])]);
    (text_data_field, JObject [("data", JArray [JBool true])]);
    (text_foo_field, JObject [("foo", JArray [JBool true])]);
    (text_no_events, JObject [("events", JArray [])]);
    (text_suppressed, JObject [("status", JString "SUPPRESSED")]);
    ("[]", JArray []);
    ("[true]", JArray [JBool true]);
    ("null", JNull) ].

(** [JSON.parse] on the texts of the table; every other text is taken to
    be malformed. *)
Definition sample_JSON_parse (text : string) : Outcome value :=
  match own text sample_table with
  | Some v => Resolved v
  | None => Rejected (ThrowSyntaxError "Unexpected token")
  end.

(** [JSON.stringify] on the one request body the samples send,
    [{ reason: <text> }] with a reason free of characters to escape. *)
Definition sample_JSON_stringify (v : value) : string :=
  match v with
  | JObject [("reason", JString reason)] =>
      "{" ++ quote ++ "reason" ++ quote ++ ":" ++ quote ++ reason ++ quote ++ "}"
  | _ => "{}"
  end.

(** Number::toString on the numbers that have a fixed spelling; no finite
    non-zero number occurs in the samples. *)
Definition sample_Number_toString (n : spec_float) : string :=
  match n with
  | S754_zero _ => "0"
  | S754_infinity false => "Infinity"
  | S754_infinity true => "-Infinity"
  | S754_nan => "NaN"
  | S754_finite _ _ _ => "1"
  end.

(** A server that answers every call with the same status and body. *)
Definition always (status : N) (text : string)
  : World -> FetchCall -> FetchResult :=
  fun _ _ => Responded (mkResponse status text).

(** A network that is down: [fetch] rejects. *)
Definition unreachable : World -> FetchCall -> FetchResult :=
  fun _ _ => Failed (ThrowTypeError "Failed to fetch").

Section WithEnvironment.

(** The build-time value [import.meta.env.VITE_API_BASE_URL]; [None] when
    the variable is not set. *)
Variable VITE_API_BASE_URL : option string.

(** The language built-ins the client calls.  [JSON.parse] returns a value
    or throws; [JSON.stringify] is applied to a non-nullish data value and
    returns its text. *)
Variable JSON_parse : string -> Outcome value.
Variable JSON_stringify : value -> string.
Variable Number_toString : spec_float -> string.

(** The network and the server behind it: the answer to a call may depend
    on the calls made before it. *)
Variable network : World -> FetchCall -> FetchResult.

(** [fetch(url, init)]: the call is logged, and the promise settles as the
    transport decides. *)
Definition fetch (url : string) (init : RequestInit) : Async Response :=
  fun w =>
    let call := mkFetchCall url init in
    match network w call with
    | Responded r => (Resolved r, (w ++ [call])%list)
    | Failed e => (Rejected e, (w ++ [call])%list)
    end.

(** [const API_BASE_URL =
      import.meta.env.VITE_API_BASE_URL?.replace(/\/$/, "") ?? ""]. *)
Definition API_BASE_URL : string :=
  match VITE_API_BASE_URL with
  | Some s => replace_trailing_slash s
  | None => ""
  end.

(** [async function parseJson(response)]. *)
Definition parseJson (response : Response) : Async value :=
  text <- ret (resp_text response) ;;
  if text =? "" then ret JNull
  else try_catch (lift (JSON_parse text)) (fun _ => ret (JString text)).

(** The object literal handed to [fetch] by [request]:
    [{ headers: { "Content-Type": "application/json",
                  ...(init?.headers ?? {}) },
       ...init }]. *)
Definition request_options (init : option RequestInit) : RequestInit :=
  let merged :=
    spread [("Content-Type", "application/json")]
           (match init with
            | Some i =>
                match init_headers i with
                | Some h => h
                | None => []
                end
            | None => []
            end) in
  match init with
  | None => mkRequestInit None (Some merged) None
  | Some i =>
      mkRequestInit
        (init_method i)
        (match init_headers i with
         | Some h => Some h
         | None => Some merged
         end)
        (init_body i)
  end.

(** [async function request<T>(path, init?)]. *)
Definition request (path : string) (init : option RequestInit) : Async value :=
  response <- fetch (API_BASE_URL ++ path) (request_options init) ;;
  payload <- parseJson response ;;
  if negb (ok response) then
    message <-
      (if (typeof payload =? "object") && truthy payload
          && has_property "message" payload
       then lift (ToString Number_toString (Get payload "message"))
       else ret ("Request failed (" ++ decimal (resp_status response) ++ ")")) ;;
    throw (ThrowApiError (mkApiError message (resp_status response) payload))
  else ret payload.

(** [export async function apiGet<T>(path)]. *)
Definition apiGet (path : string) : Async value :=
  request path (Some (mkRequestInit (Some "GET") None None)).

(** [export async function apiPost<TResponse, TBody>(path, body?)]. *)
Definition apiPost (path : string) (body : value) : Async value :=
  request path
    (Some (mkRequestInit
             (Some "POST")
             None
             (if nullish body then None else Some (JSON_stringify body)))).

(** The error thrown by a normalizer: the HTTP exchange succeeded, so the
    status is the literal 200. *)
Definition malformed (message : string) (payload : value) : Thrown :=
  ThrowApiError (mkApiError message 200 payload).

(** [function normalizeEnrollmentList(payload)]. *)
Definition normalizeEnrollmentList (payload : value) : Outcome value :=
  let thrown :=
    Rejected (malformed "Expected enrollments array from API" payload) in
  if isArray payload then Resolved payload
  else if truthy payload && (typeof payload =? "object") then
    if isArray (Get payload "enrollments") then
      Resolved (Get payload "enrollments")
    else if isArray (Get payload "data") then
      Resolved (Get payload "data")
    else thrown
  else thrown.

(** [function normalizeTimeline(payload)]. *)
Definition normalizeTimeline (payload : value) : Outcome TimelineResponse :=
  if truthy payload && (typeof payload =? "object")
     && isArray (Get payload "events")
  then Resolved (mkTimelineResponse (Get payload "events"))
  else Rejected (malformed "Expected timeline response with events[]" payload).

(** [export const sequenceApi = { ... }], member by member.
    [new URLSearchParams({ status }).toString()] is [status=] followed by
    the form-urlencoded status, and the four status names consist of
    capital letters and underscores, which that encoding leaves alone. *)
Definition listEnrollments (status : EnrollmentStatus) : Async value :=
  let params := "status=" ++ EnrollmentStatus_text status in
  payload <- apiGet ("/api/enrollments?" ++ params) ;;
  lift (normalizeEnrollmentList payload).

Definition createEnrollment (payload : value) : Async value :=
  apiPost "/api/enrollments" payload.

Definition getEnrollment (id : string) : Async value :=
  apiGet ("/api/enrollments/" ++ id).

Definition getTimeline (id : string) : Async TimelineResponse :=
  payload <- apiGet ("/api/enrollments/" ++ id ++ "/timeline") ;;
  lift (normalizeTimeline payload).

Definition suppressEnrollment (id : string) (payload : value) : Async value :=
  apiPost ("/api/enrollments/" ++ id ++ "/suppress") payload.

Definition escalateEnrollment (id : string) (payload : value) : Async value :=
  apiPost ("/api/enrollments/" ++ id ++ "/escalate") payload.

(** *** The six operations as one family

    To speak of every operation at once: an operation with its arguments,
    the kind of result it resolves with, and the dispatch to the member of
    [sequenceApi]. *)
Inductive Operation : Type :=
| ListEnrollments (status : EnrollmentStatus)
| CreateEnrollment (payload : value)
| GetEnrollment (id : string)
| GetTimeline (id : string)
| SuppressEnrollment (id : string) (payload : value)
| EscalateEnrollment (id : string) (payload : value).

Inductive Result : Type :=
| Plain (v : value)
| Timeline (t : TimelineResponse).

Definition invoke (op : Operation) : Async Result :=
  match op with
  | ListEnrollments status => fmap Plain (listEnrollments status)
  | CreateEnrollment payload => fmap Plain (createEnrollment payload)
  | GetEnrollment id => fmap Plain (getEnrollment id)
  | GetTimeline id => fmap Timeline (getTimeline id)
  | SuppressEnrollment id payload => fmap Plain (suppressEnrollment id payload)
  | EscalateEnrollment id payload => fmap Plain (escalateEnrollment id payload)
  end.

(** *** Reading the code as functions of the response

    The definitions below are not part of [api.ts]; they name, as plain
    functions, what the lemmas after them prove the code to compute. *)

(** The value [parseJson] resolves with, as a function of the body text. *)
Definition parsed (text : string) : value :=
  if text =? "" then JNull
  else match JSON_parse text with
       | Resolved v => v
       | Rejected _ => JString text
       end.

(** The text ["Request failed (<status>)"]. *)
Definition request_failed (status : N) : string :=
  "Request failed (" ++ decimal status ++ ")".

(** The message of the error for a response that is not [ok], following
    the wording of the specification: the [message] member of the body,
    converted to a string, when the body is an object that has one, the
    synthesized text otherwise. *)
Definition error_message (r : Response) : Outcome string :=
  match parsed (resp_text r) with
  | JObject o =>
      match own "message" o with
      | Some m => ToString Number_toString m
      | None => Resolved (request_failed (resp_status r))
      end
  | _ => Resolved (request_failed (resp_status r))
  end.

(** What [request] throws on a response that is not [ok]. *)
Definition failure (r : Response) : Thrown :=
  match error_message r with
  | Resolved text =>
      ThrowApiError (mkApiError text (resp_status r) (parsed (resp_text r)))
  | Rejected e => e
  end.

(** The path, method and body argument of each operation, from the table
    of the HTTP surface. *)
Definition path_of (op : Operation) : string :=
  match op with
  | ListEnrollments status =>
      "/api/enrollments?status=" ++ EnrollmentStatus_text status
  | CreateEnrollment _ => "/api/enrollments"
  | GetEnrollment id => "/api/enrollments/" ++ id
  | GetTimeline id => "/api/enrollments/" ++ id ++ "/timeline"
  | SuppressEnrollment id _ => "/api/enrollments/" ++ id ++ "/suppress"
  | EscalateEnrollment id _ => "/api/enrollments/" ++ id ++ "/escalate"
  end.

Definition method_of (op : Operation) : string :=
  match op with
  | ListEnrollments _ | GetEnrollment _ | GetTimeline _ => "GET"
  | CreateEnrollment _ | SuppressEnrollment _ _ | EscalateEnrollment _ _ =>
      "POST"
  end.

Definition argument_of (op : Operation) : option value :=
  match op with
  | ListEnrollments _ | GetEnrollment _ | GetTimeline _ => None
  | CreateEnrollment payload => Some payload
  | SuppressEnrollment _ payload => Some payload
  | EscalateEnrollment _ payload => Some payload
  end.

(** The body text that goes on the wire for a body argument. *)
Definition wire_body (argument : option value) : option string :=
  match argument with
  | None => None
  | Some b => if nullish b then None else Some (JSON_stringify b)
  end.

Definition json_headers : list (string * string) :=
  [("Content-Type", "application/json")].

(** The one call of [fetch] an operation makes. *)
Definition call_of (op : Operation) : FetchCall :=
  mkFetchCall
    (API_BASE_URL ++ path_of op)
    (mkRequestInit (Some (method_of op)) (Some json_headers)
                   (wire_body (argument_of op))).

(** What an operation does with the body of an [ok] response. *)
Definition accept (op : Operation) (body : value) : Outcome Result :=
  match op with
  | ListEnrollments _ =>
      match normalizeEnrollmentList body with
      | Resolved v => Resolved (Plain v)
      | Rejected e => Rejected e
      end
  | GetTimeline _ =>
      match normalizeTimeline body with
      | Resolved t => Resolved (Timeline t)
      | Rejected e => Rejected e
      end
  | _ => Resolved (Plain body)
  end.

(** The two ways the specification lets an operation settle: it resolves,
    or it rejects with an [ApiError]. *)
Definition resolves_or_rejects_with_ApiError {A : Type} (o : Outcome A) : Prop :=
  (exists result, o = Resolved result)
  \/ (exists e, o = Rejected (ThrowApiError e)).

(** The three envelopes [listEnrollments] recognizes, each with the array
    it contains. *)
Inductive ListEnvelope : value -> list value -> Prop :=
| BareArray (l : list value) :
    ListEnvelope (JArray l) l
| EnrollmentsField (o : list (string * value)) (l : list value) :
    own "enrollments" o = Some (JArray l) ->
    ListEnvelope (JObject o) l
| DataField (o : list (string * value)) (l : list value) :
    own "data" o = Some (JArray l) ->
    ListEnvelope (JObject o) l.

(** The envelope [getTimeline] recognizes. *)
Inductive TimelineEnvelope : value -> list value -> Prop :=
| EventsField (o : list (string * value)) (l : list value) :
    own "events" o = Some (JArray l) ->
    TimelineEnvelope (JObject o) l.

(** *** The hooks and actions of the pages

    What the pages of the dashboard do with the client.  A React state
    is written as a record, and a callback as a function from the state
    and the world before to the state and the world after it has run to
    its end. *)

(** [err instanceof Error]: every error of the model is one. *)
Definition instanceof_Error (err : Thrown) : bool :=
  match err with
  | ThrowApiError _ | ThrowTypeError _ | ThrowSyntaxError _ => true
  end.

(** [err.message]. *)
Definition Error_message (err : Thrown) : string :=
  match err with
  | ThrowApiError e => message e
  | ThrowTypeError detail => detail
  | ThrowSyntaxError detail => detail
  end.

(** The three states of [useEnrollments]. *)
Record EnrollmentsState : Type := mkEnrollmentsState {
  list_data : value;
  list_loading : bool;
  list_error : option string
}.

Definition EnrollmentsState_initial : EnrollmentsState :=
  mkEnrollmentsState (JArray []) true None.


(** [Promise.all([a, b])] of two promises that have both been started:
    it resolves when both do, and rejects with the rejection that comes
    first.  When both reject, which one came first is a matter of timing:
    [second_first] says so. *)
Definition Promise_all2 {A B : Type} (second_first : bool)
  (a : Outcome A) (b : Outcome B) : Outcome (A * B) :=
  match a, b with
  | Resolved x, Resolved y => Resolved (x, y)
  | Rejected e, Resolved _ => Rejected e
  | Resolved _, Rejected e => Rejected e
  | Rejected e1, Rejected e2 => Rejected (if second_first then e2 else e1)
  end.

(** The four states of [useEnrollmentDetail]. *)
Record DetailState : Type := mkDetailState {
  detail_enrollment : value;
  detail_events : value;
  detail_loading : bool;
  detail_error : option string
}.

Definition DetailState_initial : DetailState :=
  mkDetailState JNull (JArray []) true None.

(** [load] of [useEnrollmentDetail]:
    [if (!id) return;
     setLoading(true);
     try { const [enroll, timeline] = await Promise.all(
             [sequenceApi.getEnrollment(id), sequenceApi.getTimeline(id)]);
           setEnrollment(enroll); setEvents(timeline.events);
           setError(null); }
     catch (err) { setError(err instanceof Error ? err.message : ...); }
     finally { setLoading(false); }].
    Both operations call [fetch] before either is awaited, the enrollment
    first. *)
Definition useEnrollmentDetail_load (id : option string) (second_first : bool)
  (st : DetailState) : World -> DetailState * World :=
  fun w =>
    match id with
    | None => (st, w)
    | Some id =>
        if id =? "" then (st, w)
        else
          let (enroll, w1) := getEnrollment id w in
          let (timeline, w2) := getTimeline id w1 in
          match Promise_all2 second_first enroll timeline with
          | Resolved (enroll, timeline) =>
              (mkDetailState enroll (events timeline) false None, w2)
          | Rejected err =>
              (mkDetailState
                 (detail_enrollment st) (detail_events st) false
                 (Some (if instanceof_Error err then Error_message err
                        else "Failed to load enrollment details")),
               w2)
          end
    end.

(** The two buttons of [CustomerDetailPage]. *)
Inductive Action : Type :=
| suppress
| escalate.

(** The state [runAction] reads and writes: the hook's, the two reason
    inputs, and [saving]. *)
Record DetailPageState : Type := mkDetailPageState {
  page_detail : DetailState;
  page_suppressReason : string;
  page_escalateReason : string;
  page_saving : bool
}.

(** [{ reason }]. *)
Definition ReasonPayload (reason : string) : value :=
  JObject [("reason", JString reason)].

(** [runAction] of [CustomerDetailPage]:
    [if (!enrollment) return;
     setSaving(true);
     try { if (action === "suppress")
             await sequenceApi.suppressEnrollment(
               enrollment.id, { reason: suppressReason });
           else
             await sequenceApi.escalateEnrollment(
               enrollment.id,
               { reason: escalateReason || "manual_escalation" });
           await refresh(); }
     finally { setSaving(false); }].
    [enrollment.id] enters the path through a template literal, hence
    through the string conversion; [refresh] is the [load] of the hook,
    for the id the page was opened with.  The outcome is that of the
    promise [runAction] returns. *)
Definition runAction (action : Action) (enrollmentId : string)
  (second_first : bool) (st : DetailPageState)
  : World -> Outcome unit * DetailPageState * World :=
  fun w =>
    let enrollment := detail_enrollment (page_detail st) in
    if negb (truthy enrollment) then (Resolved tt, st, w)
    else
      let finally_ (detail : DetailState) :=
        mkDetailPageState detail (page_suppressReason st)
                          (page_escalateReason st) false in
      match ToString Number_toString (Get enrollment "id") with
      | Rejected err => (Rejected err, finally_ (page_detail st), w)
      | Resolved id =>
          let (done, w1) :=
            match action with
            | suppress =>
                suppressEnrollment id
                  (ReasonPayload (page_suppressReason st)) w
            | escalate =>
                escalateEnrollment id
                  (ReasonPayload
                     (if page_escalateReason st =? ""
                      then "manual_escalation"
                      else page_escalateReason st)) w
            end in
          match done with
          | Rejected err => (Rejected err, finally_ (page_detail st), w1)
          | Resolved _ =>
              let (detail, w2) :=
                useEnrollmentDetail_load (Some enrollmentId) second_first
                                         (page_detail st) w1 in
              (Resolved tt, finally_ detail, w2)
          end
      end.

(** A value that is not an object: [String(...)] of it cannot throw. *)
Definition primitive (v : value) : bool :=
  match v with
  | JArray _ | JObject _ => false
  | _ => true
  end.

(** The operation a button of the detail page stands for, given the id
    of the enrollment on the page and the reasons typed in. *)
Definition action_operation (action : Action) (id : string)
  (st : DetailPageState) : Operation :=
  match action with
  | suppress => SuppressEnrollment id (ReasonPayload (page_suppressReason st))
  | escalate =>
      EscalateEnrollment id
        (ReasonPayload (if page_escalateReason st =? ""
                        then "manual_escalation"
                        else page_escalateReason st))
  end.

(** How an operation that returns the body settles on the answer to its
    call. *)
Definition settle_plain (answer : FetchResult) : Outcome value :=
  match answer with
  | Failed e => Rejected e
  | Responded r =>
      if ok r then Resolved (parsed (resp_text r)) else Rejected (failure r)
  end.

(** [{"reason":"paid"}], and a [JSON.parse] that also reads it. *)
Definition text_reason_paid : string :=
  "{" ++ quote ++ "reason" ++ quote ++ ":" ++ quote ++ "paid" ++ quote ++ "}".

Definition echo_JSON_parse (text : string) : Outcome value :=
  if text =? text_reason_paid then Resolved (ReasonPayload "paid")
  else sample_JSON_parse text.

(** A server that answers every call with a 200 and the body of the
    request. *)
Definition echo : World -> FetchCall -> FetchResult :=
  fun _ call =>
    Responded (mkResponse 200
                 (match init_body (call_init call) with
                  | Some text => text
                  | None => ""
                  end)).

(** A detail page showing the enrollment [{ id: "e1" }]. *)
Definition sample_page : DetailPageState :=
  mkDetailPageState
    (mkDetailState (JObject [("id", JString "e1")]) (JArray []) false None)
    "opt_out" "" false.

(* ================================================================== *)
(** ** Properties *)
(* ================================================================== *)

(** *** The monad and [request] *)

Lemma parseJson_parsed (r : Response) (w : World) :
  parseJson r w = (Resolved (parsed (resp_text r)), w).
Proof.
  unfold parseJson, parsed, bind, ret, try_catch, lift.
  destruct (resp_text r =? ""); [reflexivity|].
  destruct (JSON_parse (resp_text r)); reflexivity.
Qed.

Lemma object_test (v : value) :
  (typeof v =? "object") && truthy v && has_property "message" v =
  match v with
  | JObject o => match own "message" o with Some _ => true | None => false end
  | _ => false
  end.
Proof.
  destruct v; reflexivity.
Qed.

(** [request] makes one call; a transport failure is passed on as it is,
    an [ok] response resolves with the parsed body, any other response
    rejects with [failure]. *)
Lemma request_settles (path : string) (init : option RequestInit) (w : World) :
  let call := mkFetchCall (API_BASE_URL ++ path) (request_options init) in
  request path init w =
  (match network w call with
   | Failed e => Rejected e
   | Responded r =>
       if ok r then Resolved (parsed (resp_text r)) else Rejected (failure r)
   end, (w ++ [call])%list).
Proof.
  intros call. unfold request, bind at 1. unfold fetch. fold call.
  destruct (network w call) as [r|e]; [|reflexivity].
  unfold bind at 1. rewrite parseJson_parsed.
  destruct (ok r); simpl; [reflexivity|].
  unfold bind, failure, error_message. rewrite object_test.
  destruct (parsed (resp_text r)) as [| |b|n|s|l|o]; try reflexivity.
  destruct (own "message" o) as [m|] eqn:E; [|reflexivity].
  unfold lift, Get. rewrite E.
  destruct (ToString Number_toString m); reflexivity.
Qed.

Lemma request_options_plain (method : string) (body : option string) :
  request_options (Some (mkRequestInit (Some method) None body)) =
  mkRequestInit (Some method) (Some json_headers) body.
Proof. reflexivity. Qed.

(** Every operation makes the one call [call_of] describes and settles as
    that call's answer dictates. *)
Lemma invoke_settles (op : Operation) (w : World) :
  invoke op w =
  (match network w (call_of op) with
   | Failed e => Rejected e
   | Responded r =>
       if ok r then accept op (parsed (resp_text r)) else Rejected (failure r)
   end, (w ++ [call_of op])%list).
Proof.
  destruct op; unfold invoke, fmap, listEnrollments, createEnrollment,
    getEnrollment, getTimeline, suppressEnrollment, escalateEnrollment,
    apiGet, apiPost;
    repeat (unfold bind at 1); rewrite request_settles;
    rewrite request_options_plain; unfold call_of; simpl;
    match goal with
    | |- context [network w ?c] => destruct (network w c) as [r|e]
    end; try reflexivity;
    destruct (ok r); try reflexivity; unfold lift, ret.
  - destruct (normalizeEnrollmentList _); reflexivity.
  - destruct (normalizeTimeline _); reflexivity.
Qed.

(** *** The list normalizer *)

Lemma normalize_bare_array (l : list value) :
  normalizeEnrollmentList (JArray l) = Resolved (JArray l).
Proof. reflexivity. Qed.

Lemma normalize_enrollments_field (o : list (string * value)) (l : list value) :
  own "enrollments" o = Some (JArray l) ->
  normalizeEnrollmentList (JObject o) = Resolved (JArray l).
Proof.
  intros E. unfold normalizeEnrollmentList, Get. simpl. now rewrite E.
Qed.

Lemma normalize_data_field (o : list (string * value)) (l : list value) :
  own "data" o = Some (JArray l) ->
  isArray (Get (JObject o) "enrollments") = false ->
  normalizeEnrollmentList (JObject o) = Resolved (JArray l).
Proof.
  intros D E. unfold normalizeEnrollmentList. simpl isArray at 1. cbv iota.
  rewrite E. simpl. unfold Get. now rewrite D.
Qed.

Lemma isArray_inv (v : value) :
  isArray v = true -> exists l, v = JArray l.
Proof. destruct v; try discriminate. eauto. Qed.

Lemma Get_array_inv (v : value) (k : string) (l : list value) :
  Get v k = JArray l -> exists o, v = JObject o /\ own k o = Some (JArray l).
Proof.
  destruct v as [| |b|n|s|l'|o]; try discriminate. simpl.
  destruct (own k o) as [x|] eqn:E; [|discriminate].
  intros ->. eauto.
Qed.

(** The normalizer either returns an array that one of the envelopes
    contains, or the payload is no envelope and the fixed error is
    thrown. *)
Lemma normalize_cases (p : value) :
  (exists l, normalizeEnrollmentList p = Resolved (JArray l)
             /\ ListEnvelope p l)
  \/ (normalizeEnrollmentList p
        = Rejected (malformed "Expected enrollments array from API" p)
      /\ forall l, ~ ListEnvelope p l).
Proof.
  unfold normalizeEnrollmentList.
  destruct (isArray p) eqn:A.
  { apply isArray_inv in A as [l ->]. left. exists l. split; constructor. }
  destruct (truthy p && (typeof p =? "object")) eqn:T; simpl.
  - destruct (isArray (Get p "enrollments")) eqn:E.
    { apply isArray_inv in E as [l E]. left. exists l. rewrite E. split; auto.
      apply Get_array_inv in E as (o & -> & E). now constructor. }
    destruct (isArray (Get p "data")) eqn:D.
    { apply isArray_inv in D as [l D]. left. exists l. rewrite D. split; auto.
      apply Get_array_inv in D as (o & -> & D). now constructor 3. }
    right. split; [reflexivity|]. intros l H.
    inversion H; subst; simpl in *.
    + discriminate.
    + rewrite H0 in E. discriminate.
    + rewrite H0 in D. discriminate.
  - right. split; [reflexivity|]. intros l H.
    inversion H; subst; simpl in *; discriminate.
Qed.

Lemma listEnrollments_ok (status : EnrollmentStatus) (w : World) (r : Response) :
  network w (call_of (ListEnrollments status)) = Responded r ->
  ok r = true ->
  listEnrollments status w =
  (normalizeEnrollmentList (parsed (resp_text r)),
   (w ++ [call_of (ListEnrollments status)])%list).
Proof.
  intros N K. unfold listEnrollments, apiGet, bind.
  rewrite request_settles, request_options_plain.
  change (mkFetchCall _ _) with (call_of (ListEnrollments status)).
  now rewrite N, K.
Qed.

(** C1. On a 2xx response [listEnrollments] accepts exactly the three
    envelopes (a bare array, an object whose [enrollments] member is an
    array, an object whose [data] member is an array) and resolves with
    the array the envelope contains, as it is: the same elements in the
    same order.  In particular the same array under each of the three
    envelopes normalizes to the same result. *)
Theorem C1_list_envelopes
  (status : EnrollmentStatus) (w : World) (r : Response) :
  network w (call_of (ListEnrollments status)) = Responded r ->
  ok r = true ->
  let body := parsed (resp_text r) in
  let result := fst (listEnrollments status w) in
  ((exists v, result = Resolved v) <-> (exists l, ListEnvelope body l))
  /\ (forall v, result = Resolved v ->
        exists l, v = JArray l /\ ListEnvelope body l)
  /\ (forall l, body = JArray l -> result = Resolved (JArray l))
  /\ (forall o l, body = JObject o ->
        own "enrollments" o = Some (JArray l) ->
        result = Resolved (JArray l))
  /\ (forall o l, body = JObject o ->
        own "data" o = Some (JArray l) ->
        isArray (Get body "enrollments") = false ->
        result = Resolved (JArray l))
  /\ (forall l,
        normalizeEnrollmentList (JArray l) = Resolved (JArray l)
        /\ normalizeEnrollmentList (JObject [("enrollments", JArray l)])
           = Resolved (JArray l)
        /\ normalizeEnrollmentList (JObject [("data", JArray l)])
           = Resolved (JArray l)).
Proof.
  intros N K body result.
  assert (R : result = normalizeEnrollmentList body).
  { unfold result. now rewrite (listEnrollments_ok N K). }
  rewrite R. clear R result.
  repeat split.
  - intros [v H]. destruct (normalize_cases body) as [(l & _ & L)|(E & _)].
    + now exists l.
    + rewrite E in H. discriminate.
  - intros [l L]. destruct (normalize_cases body) as [(l' & E & _)|(_ & No)].
    + now exists (JArray l').
    + now destruct (No l).
  - intros v H. destruct (normalize_cases body) as [(l & E & L)|(E & _)];
      rewrite E in H; inversion H; subst. now exists l.
  - intros l ->. reflexivity.
  - intros o l -> E. now apply normalize_enrollments_field.
  - intros o l B D E. rewrite B in *. now apply normalize_data_field.
Qed.

(** C3. On a 2xx response whose payload is none of the three envelopes,
    [listEnrollments] rejects with an [ApiError] of status 200, with the
    message "Expected enrollments array from API" and the payload it was
    given. *)
Theorem C3_list_malformed
  (status : EnrollmentStatus) (w : World) (r : Response) :
  network w (call_of (ListEnrollments status)) = Responded r ->
  ok r = true ->
  (forall l, ~ ListEnvelope (parsed (resp_text r)) l) ->
  fst (listEnrollments status w) =
  Rejected (ThrowApiError
              (mkApiError "Expected enrollments array from API" 200
                          (parsed (resp_text r)))).
Proof.
  intros N K No. rewrite (listEnrollments_ok N K). simpl.
  destruct (normalize_cases (parsed (resp_text r))) as [(l & _ & L)|(E & _)].
  - now destruct (No l).
  - exact E.
Qed.

(** C9. The shapes are tried in a fixed order: the bare array, then
    [enrollments], then [data].  When both members of an object payload
    are arrays, [listEnrollments] resolves with the [enrollments] array
    and the [data] array plays no part. *)
Theorem C9_enrollments_before_data
  (status : EnrollmentStatus) (w : World) (r : Response)
  (o : list (string * value)) (e d : list value) :
  network w (call_of (ListEnrollments status)) = Responded r ->
  ok r = true ->
  parsed (resp_text r) = JObject o ->
  own "enrollments" o = Some (JArray e) ->
  own "data" o = Some (JArray d) ->
  fst (listEnrollments status w) = Resolved (JArray e).
Proof.
  intros N K B E _. rewrite (listEnrollments_ok N K). simpl.
  rewrite B. now apply normalize_enrollments_field.
Qed.

(** *** The timeline normalizer *)

Lemma timeline_cases (p : value) :
  (exists l, normalizeTimeline p = Resolved (mkTimelineResponse (JArray l))
             /\ TimelineEnvelope p l)
  \/ (normalizeTimeline p
        = Rejected (malformed "Expected timeline response with events[]" p)
      /\ forall l, ~ TimelineEnvelope p l).
Proof.
  unfold normalizeTimeline.
  destruct (truthy p && (typeof p =? "object")) eqn:T; simpl.
  - destruct (isArray (Get p "events")) eqn:E.
    + apply isArray_inv in E as [l E]. left. exists l. rewrite E. split; auto.
      apply Get_array_inv in E as (o & -> & E). now constructor.
    + right. split; [reflexivity|]. intros l H. inversion H; subst.
      simpl in E. rewrite H0 in E. discriminate.
  - right. split; [reflexivity|]. intros l H. inversion H; subst.
    discriminate.
Qed.

Lemma getTimeline_ok (id : string) (w : World) (r : Response) :
  network w (call_of (GetTimeline id)) = Responded r ->
  ok r = true ->
  getTimeline id w =
  (normalizeTimeline (parsed (resp_text r)),
   (w ++ [call_of (GetTimeline id)])%list).
Proof.
  intros N K. unfold getTimeline, apiGet, bind.
  rewrite request_settles, request_options_plain.
  change (mkFetchCall _ _) with (call_of (GetTimeline id)).
  now rewrite N, K.
Qed.

(** C4. On a 2xx response [getTimeline] accepts one shape only, an object
    whose [events] member is an array, and resolves with that array as
    the [events] of the result, an empty array included.  Every other
    payload, a bare array among them, is rejected with the fixed
    [ApiError] of status 200 that carries the payload. *)
Theorem C4_timeline_envelope (id : string) (w : World) (r : Response) :
  network w (call_of (GetTimeline id)) = Responded r ->
  ok r = true ->
  let body := parsed (resp_text r) in
  let result := fst (getTimeline id w) in
  let rejection :=
    ThrowApiError
      (mkApiError "Expected timeline response with events[]" 200 body) in
  (forall o l, body = JObject o -> own "events" o = Some (JArray l) ->
     result = Resolved (mkTimelineResponse (JArray l)))
  /\ (body = JObject [("events", JArray [])] ->
      result = Resolved (mkTimelineResponse (JArray [])))
  /\ ((forall l, ~ TimelineEnvelope body l) -> result = Rejected rejection)
  /\ (forall l, body = JArray l -> result = Rejected rejection)
  /\ ((exists t, result = Resolved t) <-> (exists l, TimelineEnvelope body l)).
Proof.
  intros N K body result rejection.
  assert (R : result = normalizeTimeline body).
  { unfold result. now rewrite (getTimeline_ok N K). }
  rewrite R. clear R result.
  assert (Found : forall o l, body = JObject o -> own "events" o = Some (JArray l) ->
            normalizeTimeline body = Resolved (mkTimelineResponse (JArray l))).
  { intros o l -> E. unfold normalizeTimeline, Get. simpl. now rewrite E. }
  repeat split.
  - exact Found.
  - intros B. now apply (Found _ _ B).
  - intros No. destruct (timeline_cases body) as [(l & _ & L)|(E & _)].
    + now destruct (No l).
    + exact E.
  - intros l ->. reflexivity.
  - intros [t H]. destruct (timeline_cases body) as [(l & _ & L)|(E & _)].
    + now exists l.
    + rewrite E in H. discriminate.
  - intros [l L]. destruct (timeline_cases body) as [(l' & E & _)|(_ & No)].
    + eauto.
    + now destruct (No l).
Qed.

(** *** Body parsing *)

(** C5. [parseJson] always resolves, whatever the body text and whatever
    [JSON.parse] does with it: with [null] on an empty body, with the
    parsed value when the text parses, and with the text itself, as a
    string, when [JSON.parse] throws.  It leaves the world as it was. *)
Theorem C5_parseJson_total (r : Response) (w : World) :
  exists v,
    parseJson r w = (Resolved v, w)
    /\ (resp_text r = "" -> v = JNull)
    /\ (forall p, resp_text r <> "" ->
          JSON_parse (resp_text r) = Resolved p -> v = p)
    /\ (forall e, resp_text r <> "" ->
          JSON_parse (resp_text r) = Rejected e -> v = JString (resp_text r)).
Proof.
  exists (parsed (resp_text r)). split; [apply parseJson_parsed|].
  unfold parsed. destruct (resp_text r =? "") eqn:E.
  - apply String.eqb_eq in E. repeat split; intros; congruence.
  - repeat split.
    + intros H. rewrite H in E. discriminate.
    + intros p _ ->. reflexivity.
    + intros e _ ->. reflexivity.
Qed.

(** *** Operations that return the body as it is *)

Ltac run_request N K :=
  unfold createEnrollment, getEnrollment, suppressEnrollment,
    escalateEnrollment, apiGet, apiPost;
  rewrite request_settles, request_options_plain;
  match type of N with
  | network _ ?c = _ => change (mkFetchCall _ _) with c
  end;
  rewrite N, K.

(** C6. [getEnrollment], [createEnrollment], [suppressEnrollment] and
    [escalateEnrollment] resolve, on every 2xx response, with the parsed
    body and nothing else: no normalization, no validation, nothing
    recomputed.  So the [status] member of what suppress and escalate
    return is the one in the body the server sent. *)
Theorem C6_body_returned_as_received (w : World) (r : Response) :
  ok r = true ->
  let body := parsed (resp_text r) in
  (forall id,
     network w (call_of (GetEnrollment id)) = Responded r ->
     fst (getEnrollment id w) = Resolved body)
  /\ (forall payload,
        network w (call_of (CreateEnrollment payload)) = Responded r ->
        fst (createEnrollment payload w) = Resolved body)
  /\ (forall id payload,
        network w (call_of (SuppressEnrollment id payload)) = Responded r ->
        fst (suppressEnrollment id payload w) = Resolved body)
  /\ (forall id payload,
        network w (call_of (EscalateEnrollment id payload)) = Responded r ->
        fst (escalateEnrollment id payload w) = Resolved body)
  /\ (forall id payload v,
        network w (call_of (SuppressEnrollment id payload)) = Responded r ->
        fst (suppressEnrollment id payload w) = Resolved v ->
        Get v "status" = Get body "status")
  /\ (forall id payload v,
        network w (call_of (EscalateEnrollment id payload)) = Responded r ->
        fst (escalateEnrollment id payload w) = Resolved v ->
        Get v "status" = Get body "status").
Proof.
  intros K body. repeat split.
  - intros id N. now run_request N K.
  - intros payload N. now run_request N K.
  - intros id payload N. now run_request N K.
  - intros id payload N. now run_request N K.
  - intros id payload v N. run_request N K. simpl. now intros [= <-].
  - intros id payload v N. run_request N K. simpl. now intros [= <-].
Qed.

(** *** The base URL *)

Lemma replace_trailing_slash_strips (s : string) :
  replace_trailing_slash (s ++ "/") = s.
Proof.
  induction s as [|c s IH]; [reflexivity|].
  change (String c s ++ "/") with (String c (s ++ "/")).
  destruct s as [|c' s']; [reflexivity|].
  change (replace_trailing_slash (String c (String c' s' ++ "/")))
    with (String c (replace_trailing_slash (String c' s' ++ "/"))).
  now rewrite IH.
Qed.

Lemma replace_trailing_slash_keeps (s : string) :
  (forall t, s <> t ++ "/") -> replace_trailing_slash s = s.
Proof.
  induction s as [|c s IH]; intros No; [reflexivity|].
  destruct s as [|c' s'].
  - simpl. destruct (Ascii.eqb_spec c "/") as [->|]; [|reflexivity].
    now destruct (No "").
  - change (replace_trailing_slash (String c (String c' s')))
      with (String c (replace_trailing_slash (String c' s'))).
    rewrite IH; [reflexivity|].
    intros t E. apply (No (String c t)). simpl. now rewrite E.
Qed.

(** C8. The prefix of every request URL is the value of the one
    configuration variable with a slash at its end removed, and the empty
    string when the variable is not set, so that the paths are then
    relative to the origin that serves the page. *)
Theorem C8_base_url :
  (VITE_API_BASE_URL = None -> API_BASE_URL = "")
  /\ (forall s, VITE_API_BASE_URL = Some (s ++ "/") -> API_BASE_URL = s)
  /\ (forall s, VITE_API_BASE_URL = Some s ->
        (forall t, s <> t ++ "/") -> API_BASE_URL = s)
  /\ (forall op w,
        exists call,
          snd (invoke op w) = (w ++ [call])%list
          /\ call_url call = API_BASE_URL ++ path_of op)
  /\ (VITE_API_BASE_URL = None ->
      forall op w,
        exists call,
          snd (invoke op w) = (w ++ [call])%list
          /\ call_url call = path_of op).
Proof.
  unfold API_BASE_URL. repeat split.
  - now intros ->.
  - intros s ->. apply replace_trailing_slash_strips.
  - intros s -> No. now apply replace_trailing_slash_keeps.
  - intros op w. exists (call_of op). now rewrite invoke_settles.
  - intros E op w. exists (call_of op). rewrite invoke_settles. split; auto.
    simpl. unfold API_BASE_URL. now rewrite E.
Qed.

(** *** What goes on the wire *)

Lemma apiPost_call (path : string) (body : value) (w : World) :
  snd (apiPost path body w) =
  (w ++ [mkFetchCall (API_BASE_URL ++ path)
           (mkRequestInit (Some "POST") (Some json_headers)
              (if nullish body then None else Some (JSON_stringify body)))])%list.
Proof.
  unfold apiPost. now rewrite request_settles, request_options_plain.
Qed.

Lemma apiGet_call (path : string) (w : World) :
  snd (apiGet path w) =
  (w ++ [mkFetchCall (API_BASE_URL ++ path)
           (mkRequestInit (Some "GET") (Some json_headers) None)])%list.
Proof.
  unfold apiGet. now rewrite request_settles, request_options_plain.
Qed.

(** C10. A POST whose body argument is [null] or [undefined] is sent
    without a body (not with the text [null]); any other argument is sent
    as its [JSON.stringify] text, and every request, GET or POST, carries
    the header [Content-Type: application/json]. *)
Theorem C10_request_body_and_header :
  (forall path body w,
     exists call,
       snd (apiPost path body w) = (w ++ [call])%list
       /\ init_method (call_init call) = Some "POST"
       /\ init_headers (call_init call)
          = Some [("Content-Type", "application/json")]
       /\ (nullish body = true -> init_body (call_init call) = None)
       /\ (nullish body = false ->
           init_body (call_init call) = Some (JSON_stringify body)))
  /\ (forall path w,
        exists call,
          snd (apiGet path w) = (w ++ [call])%list
          /\ init_headers (call_init call)
             = Some [("Content-Type", "application/json")]
          /\ init_body (call_init call) = None)
  /\ (forall op w,
        exists call,
          snd (invoke op w) = (w ++ [call])%list
          /\ init_headers (call_init call)
             = Some [("Content-Type", "application/json")]
          /\ (forall body, argument_of op = Some body ->
                init_method (call_init call) = Some "POST"
                /\ init_body (call_init call)
                   = if nullish body then None
                     else Some (JSON_stringify body))).
Proof.
  repeat split.
  - intros path body w. eexists. split; [apply apiPost_call|]. simpl.
    repeat split; now intros ->.
  - intros path w. eexists. split; [apply apiGet_call|]. now simpl.
  - intros op w. exists (call_of op). rewrite invoke_settles.
    split; [reflexivity|]. split; [reflexivity|].
    intros body A.
    destruct op; simpl in A; try discriminate; injection A as <-;
      split; reflexivity.
Qed.

(** *** String conversion *)

Lemma join_rejection (convert : value -> Outcome string) (P : Thrown -> Prop)
  (l : list value) :
  Forall (fun x => forall e, convert x = Rejected e -> P e) l ->
  forall e, join convert l = Rejected e -> P e.
Proof.
  induction 1 as [|x rest Hx _ IH]; intros e; [discriminate|].
  simpl. destruct (nullish x).
  - destruct rest as [|y rest']; [discriminate|].
    destruct (join convert (y :: rest')) as [r|e'] eqn:J; [discriminate|].
    intros [= <-]. now apply IH.
  - destruct (convert x) as [t|e'] eqn:C.
    + destruct rest as [|y rest']; [discriminate|].
      destruct (join convert (y :: rest')) as [r|e''] eqn:J; [discriminate|].
      intros [= <-]. now apply IH.
    + intros [= <-]. now apply Hx.
Qed.

(** [String(v)] throws nothing but the TypeError of a failed conversion
    to a primitive; in particular never an [ApiError]. *)
Lemma ToString_rejection (v : value) (e : Thrown) :
  ToString Number_toString v = Rejected e -> e = cannot_convert.
Proof.
  revert e.
  induction v as [| |b|n|s|l IH|o _] using value_induction; intros e;
    simpl; try discriminate.
  - destruct b; discriminate.
  - apply (join_rejection (ToString Number_toString)
             (fun e => e = cannot_convert) IH).
  - destruct (own "toString" o); [|discriminate]. now intros [= <-].
Qed.

(** *** Settling *)

Lemma accept_cases (op : Operation) (body : value) :
  (exists result, accept op body = Resolved result)
  \/ (exists text,
        accept op body = Rejected (ThrowApiError (mkApiError text 200 body))).
Proof.
  destruct op; simpl; eauto.
  - destruct (normalize_cases body) as [(l & -> & _)|(-> & _)];
      unfold malformed; eauto.
  - destruct (timeline_cases body) as [(l & -> & _)|(-> & _)];
      unfold malformed; eauto.
Qed.

(** A response that is not [ok] makes every operation reject with an
    [ApiError] that carries the status of the response, the parsed body,
    and the derived message, whenever that message can be derived. *)
Lemma invoke_not_ok (op : Operation) (w : World) (r : Response) (text : string) :
  network w (call_of op) = Responded r ->
  ok r = false ->
  error_message r = Resolved text ->
  fst (invoke op w) =
  Rejected (ThrowApiError
              (mkApiError text (resp_status r) (parsed (resp_text r)))).
Proof.
  intros N K M. rewrite invoke_settles, N, K. unfold failure. now rewrite M.
Qed.

(** The message is the [message] member when it is a string, and the
    synthesized text when the body has no such member. *)
Lemma error_message_string (r : Response) (o : list (string * value)) (m : string) :
  parsed (resp_text r) = JObject o ->
  own "message" o = Some (JString m) ->
  error_message r = Resolved m.
Proof. intros B M. unfold error_message. now rewrite B, M. Qed.

Lemma error_message_synthesized (r : Response) :
  has_property "message" (parsed (resp_text r)) = false ->
  error_message r = Resolved (request_failed (resp_status r)).
Proof.
  unfold error_message, has_property.
  destruct (parsed (resp_text r)) as [| |b|n|s|l|o]; try reflexivity.
  now destruct (own "message" o).
Qed.

(** When the [message] member of the body of a response that is not
    [ok] cannot be converted to a string, the TypeError of the conversion
    leaves [request] before the [ApiError] is built. *)
Lemma invoke_message_not_convertible
  (op : Operation) (w : World) (r : Response)
  (o : list (string * value)) (m : value) (e : Thrown) :
  network w (call_of op) = Responded r ->
  ok r = false ->
  parsed (resp_text r) = JObject o ->
  own "message" o = Some m ->
  ToString Number_toString m = Rejected e ->
  fst (invoke op w) = Rejected cannot_convert
  /\ is_ApiError cannot_convert = false.
Proof.
  intros N K B M T. split; [|reflexivity].
  rewrite invoke_settles, N, K. unfold failure, error_message.
  rewrite B, M, T. simpl. f_equal. now apply ToString_rejection with m.
Qed.

(** C7, as the code has it.  Every operation makes exactly one call of
    [fetch] and settles once, as that call did.  When the transport fails,
    the call rejects with the transport's own error, as it is.  On a 2xx
    response the call resolves with the normalized result, or rejects
    with the [ApiError] of status 200 of the shape check.  On any other
    response the call never resolves, and it rejects with the [ApiError]
    of that status whenever the message of the error can be derived.
    Nothing is retried, recovered from or swallowed. *)
Theorem C7_one_call_one_settlement (op : Operation) (w : World) :
  snd (invoke op w) = (w ++ [call_of op])%list
  /\ match network w (call_of op) with
     | Failed e => fst (invoke op w) = Rejected e
     | Responded r =>
         let body := parsed (resp_text r) in
         if ok r then
           fst (invoke op w) = accept op body
           /\ ((exists result, accept op body = Resolved result)
               \/ (exists text,
                     accept op body
                     = Rejected (ThrowApiError (mkApiError text 200 body))))
         else
           (forall result, fst (invoke op w) <> Resolved result)
           /\ (forall text,
                 error_message r = Resolved text ->
                 fst (invoke op w)
                 = Rejected (ThrowApiError
                               (mkApiError text (resp_status r) body)))
     end.
Proof.
  split; [now rewrite invoke_settles|].
  destruct (network w (call_of op)) as [r|e] eqn:N.
  - cbv zeta. destruct (ok r) eqn:K.
    + split; [|apply accept_cases]. now rewrite invoke_settles, N, K.
    + split.
      * intros result. rewrite invoke_settles, N, K. discriminate.
      * intros text M. now apply invoke_not_ok.
  - now rewrite invoke_settles, N.
Qed.

(** *** More on the client: bodies at the edge *)

Lemma parsed_empty : parsed "" = JNull.
Proof. reflexivity. Qed.

Lemma parsed_not_json (text : string) (e : Thrown) :
  text <> "" -> JSON_parse text = Rejected e -> parsed text = JString text.
Proof.
  intros NE P. unfold parsed.
  destruct (text =? "") eqn:E; [apply String.eqb_eq in E; contradiction|].
  now rewrite P.
Qed.

(** X1. A 2xx response with an empty body (a 204, say) parses to [null]:
    the four operations that return the body resolve with [null], and
    [listEnrollments] and [getTimeline] reject with their shape error,
    of status 200 and payload [null]. *)
Theorem empty_body_on_success (op : Operation) (w : World) (r : Response) :
  network w (call_of op) = Responded r ->
  ok r = true ->
  resp_text r = "" ->
  fst (invoke op w) =
  match op with
  | ListEnrollments _ =>
      Rejected (ThrowApiError
        (mkApiError "Expected enrollments array from API" 200 JNull))
  | GetTimeline _ =>
      Rejected (ThrowApiError
        (mkApiError "Expected timeline response with events[]" 200 JNull))
  | _ => Resolved (Plain JNull)
  end.
Proof.
  intros N K E. rewrite invoke_settles, N, K, E, parsed_empty.
  destruct op; reflexivity.
Qed.

(** X2. A 2xx response whose body is not JSON is kept as text: the four
    operations that return the body resolve with that text as a string,
    and [listEnrollments] and [getTimeline] reject with their shape
    error carrying the text. *)
Theorem text_body_on_success
  (op : Operation) (w : World) (r : Response) (e : Thrown) :
  network w (call_of op) = Responded r ->
  ok r = true ->
  resp_text r <> "" ->
  JSON_parse (resp_text r) = Rejected e ->
  fst (invoke op w) =
  match op with
  | ListEnrollments _ =>
      Rejected (ThrowApiError
        (mkApiError "Expected enrollments array from API" 200
                    (JString (resp_text r))))
  | GetTimeline _ =>
      Rejected (ThrowApiError
        (mkApiError "Expected timeline response with events[]" 200
                    (JString (resp_text r))))
  | _ => Resolved (Plain (JString (resp_text r)))
  end.
Proof.
  intros N K NE P. rewrite invoke_settles, N, K, (parsed_not_json NE P).
  destruct op; try reflexivity.
  - simpl. unfold normalizeEnrollmentList. simpl.
    now rewrite andb_false_r.
  - simpl. unfold normalizeTimeline. simpl.
    now rewrite andb_false_r.
Qed.

(** *** More on the client: what a rejection can be *)

(** X3. Once the transport has answered, an operation that rejects does
    so with an [ApiError] or with the TypeError of a failed string
    conversion, and with nothing else: a body that does not parse never
    surfaces as a SyntaxError. *)
Theorem rejection_kinds
  (op : Operation) (w : World) (r : Response) (e : Thrown) :
  network w (call_of op) = Responded r ->
  fst (invoke op w) = Rejected e ->
  (is_ApiError e = true \/ e = cannot_convert)
  /\ (forall detail, e <> ThrowSyntaxError detail).
Proof.
  intros N R.
  assert (H : is_ApiError e = true \/ e = cannot_convert).
  { rewrite invoke_settles, N in R. simpl in R. destruct (ok r).
    - destruct (accept_cases op (parsed (resp_text r))) as [[x A]|[t A]];
        rewrite A in R; [discriminate|]. injection R as <-. now left.
    - injection R as <-. unfold failure.
      destruct (error_message r) as [t|e'] eqn:M; [now left|].
      right. unfold error_message in M.
      destruct (parsed (resp_text r)); try discriminate.
      destruct (own "message" properties) as [m|]; [|discriminate].
      now apply ToString_rejection with m. }
  split; [exact H|].
  intros detail ->. destruct H as [H|H]; discriminate.
Qed.

(** X4. The status of an [ApiError] tells the two kinds of failure
    apart: it is 200 exactly when the response was a 2xx and the shape
    check failed, and otherwise it is the status of the response, which
    is then outside 200-299.  Either way the payload is the parsed
    body. *)
Theorem ApiError_status_discriminates
  (op : Operation) (w : World) (r : Response) (e : ApiError) :
  network w (call_of op) = Responded r ->
  fst (invoke op w) = Rejected (ThrowApiError e) ->
  payload e = parsed (resp_text r)
  /\ (status e = 200%N <-> ok r = true)
  /\ (ok r = false ->
      status e = resp_status r
      /\ ((resp_status r < 200)%N \/ (299 < resp_status r)%N)).
Proof.
  intros N R. rewrite invoke_settles, N in R. simpl in R.
  destruct (ok r) eqn:K.
  - destruct (accept_cases op (parsed (resp_text r))) as [[x A]|[t A]];
      rewrite A in R; [discriminate|]. injection R as <-. simpl.
    repeat split; auto; discriminate.
  - injection R as R. unfold failure in R.
    destruct (error_message r) as [t|e'] eqn:M.
    + injection R as <-. simpl.
      assert (B : (resp_status r < 200)%N \/ (299 < resp_status r)%N).
      { unfold ok in K. apply andb_false_iff in K as [K|K].
        - left. now apply N.leb_gt.
        - right. now apply N.leb_gt. }
      repeat split; auto; try discriminate.
      intros E. rewrite E in B. destruct B as [B|B]; now inversion B.
    + unfold error_message in M.
      destruct (parsed (resp_text r)); try discriminate.
      destruct (own "message" properties) as [m|]; [|discriminate].
      apply ToString_rejection in M. subst e'. discriminate.
Qed.

Lemma ToString_primitive (v : value) :
  primitive v = true -> exists text, ToString Number_toString v = Resolved text.
Proof.
  destruct v as [| |b|n|s|l|o]; try discriminate; simpl; eauto.
  destruct b; eauto.
Qed.

(** X5. A response that is not a 2xx always rejects with an [ApiError]
    of its status when the [message] member of the body, if there is
    one, is not an object: a string, a number, a boolean or [null]. *)
Theorem primitive_message_gives_ApiError
  (op : Operation) (w : World) (r : Response) :
  network w (call_of op) = Responded r ->
  ok r = false ->
  (forall o m, parsed (resp_text r) = JObject o ->
               own "message" o = Some m -> primitive m = true) ->
  exists text,
    error_message r = Resolved text
    /\ fst (invoke op w) =
       Rejected (ThrowApiError
                   (mkApiError text (resp_status r) (parsed (resp_text r)))).
Proof.
  intros N K P.
  assert (M : exists text, error_message r = Resolved text).
  { unfold error_message.
    destruct (parsed (resp_text r)) as [| |b|n|s|l|o] eqn:B; eauto.
    destruct (own "message" o) as [m|] eqn:O; eauto.
    apply ToString_primitive. now apply (P o). }
  destruct M as [text M]. exists text. split; [exact M|].
  now apply invoke_not_ok.
Qed.

(** *** More on the client: what is sent comes back *)

(** X6. Against a server that answers a POST with a 2xx and the body it
    was sent, [createEnrollment], [suppressEnrollment] and
    [escalateEnrollment] resolve with the very payload they were given,
    provided [JSON.parse] undoes [JSON.stringify] on it. *)
Theorem echo_round_trip
  (op : Operation) (payload : value) (w : World) (r : Response) :
  argument_of op = Some payload ->
  nullish payload = false ->
  JSON_stringify payload <> "" ->
  JSON_parse (JSON_stringify payload) = Resolved payload ->
  network w (call_of op) = Responded r ->
  ok r = true ->
  Some (resp_text r) = init_body (call_init (call_of op)) ->
  fst (invoke op w) = Resolved (Plain payload).
Proof.
  intros A NN NE RT N K Echo.
  assert (T : resp_text r = JSON_stringify payload).
  { unfold call_of in Echo. simpl in Echo. rewrite A in Echo. simpl in Echo.
    rewrite NN in Echo. now injection Echo. }
  assert (B : parsed (resp_text r) = payload).
  { unfold parsed. rewrite T.
    destruct (JSON_stringify payload =? "") eqn:E.
    - apply String.eqb_eq in E. contradiction.
    - now rewrite RT. }
  rewrite invoke_settles, N, K, B.
  destruct op; simpl in A; try discriminate; reflexivity.
Qed.

(** *** More on the client: ids in paths *)

Lemma append_cancel_l (p a b : string) : p ++ a = p ++ b -> a = b.
Proof.
  induction p as [|c p IH]; simpl; [auto|]. intros [= H]. auto.
Qed.

(** X7. An id goes into the path as it is, without escaping.  So
    [getEnrollment a] and [getTimeline b] make the same call exactly
    when [a] is [b] followed by [/timeline], and two calls of
    [getEnrollment] are the same call only for the same id. *)
Theorem ids_are_not_escaped (a b : string) :
  (call_of (GetEnrollment a) = call_of (GetTimeline b)
   <-> a = b ++ "/timeline")
  /\ (call_of (GetEnrollment a) = call_of (GetEnrollment b) <-> a = b)
  /\ (forall w, snd (getEnrollment a w) = (w ++ [call_of (GetEnrollment a)])%list)
  /\ (forall w, snd (getTimeline b w) = (w ++ [call_of (GetTimeline b)])%list).
Proof.
  repeat split.
  - unfold call_of. simpl. intros [= H].
    apply append_cancel_l in H.
    now apply (append_cancel_l "/api/enrollments/") in H.
  - now intros ->.
  - unfold call_of. simpl. intros [= H].
    apply append_cancel_l in H.
    now apply (append_cancel_l "/api/enrollments/") in H.
  - now intros ->.
  - intros w. unfold getEnrollment. now rewrite apiGet_call.
  - intros w. unfold getTimeline, bind, apiGet.
    rewrite request_settles, request_options_plain.
    destruct (network w _) as [r|e]; [destruct (ok r)|]; reflexivity.
Qed.

(** *** The hooks *)

Lemma instanceof_Error_always (err : Thrown) : instanceof_Error err = true.
Proof. now destruct err. Qed.

Lemma getEnrollment_settles (id : string) (w : World) :
  getEnrollment id w =
  (settle_plain (network w (call_of (GetEnrollment id))),
   (w ++ [call_of (GetEnrollment id)])%list).
Proof.
  unfold getEnrollment, apiGet.
  now rewrite request_settles, request_options_plain.
Qed.

Lemma suppressEnrollment_settles (id : string) (p : value) (w : World) :
  suppressEnrollment id p w =
  (settle_plain (network w (call_of (SuppressEnrollment id p))),
   (w ++ [call_of (SuppressEnrollment id p)])%list).
Proof.
  unfold suppressEnrollment, apiPost.
  now rewrite request_settles, request_options_plain.
Qed.

Lemma escalateEnrollment_settles (id : string) (p : value) (w : World) :
  escalateEnrollment id p w =
  (settle_plain (network w (call_of (EscalateEnrollment id p))),
   (w ++ [call_of (EscalateEnrollment id p)])%list).
Proof.
  unfold escalateEnrollment, apiPost.
  now rewrite request_settles, request_options_plain.
Qed.


Lemma getTimeline_settles (id : string) (w : World) :
  getTimeline id w =
  (match network w (call_of (GetTimeline id)) with
   | Failed e => Rejected e
   | Responded r =>
       if ok r then normalizeTimeline (parsed (resp_text r))
       else Rejected (failure r)
   end, (w ++ [call_of (GetTimeline id)])%list).
Proof.
  unfold getTimeline, apiGet, bind.
  rewrite request_settles, request_options_plain.
  change (mkFetchCall _ _) with (call_of (GetTimeline id)).
  destruct (network w _) as [r|e]; [destruct (ok r)|]; reflexivity.
Qed.


Lemma Promise_all2_rejected {A B : Type} (b : bool)
  (o1 : Outcome A) (o2 : Outcome B) (err : Thrown) :
  Promise_all2 b o1 o2 = Rejected err ->
  o1 = Rejected err \/ o2 = Rejected err.
Proof.
  destruct o1, o2; simpl; try discriminate; intros [= <-]; auto.
  destruct b; auto.
Qed.

Lemma useEnrollmentDetail_load_runs
  (id : string) (second_first : bool) (st : DetailState) (w : World) :
  id <> "" ->
  let c1 := call_of (GetEnrollment id) in
  let c2 := call_of (GetTimeline id) in
  useEnrollmentDetail_load (Some id) second_first st w =
  (match Promise_all2 second_first
           (fst (getEnrollment id w))
           (fst (getTimeline id (w ++ [c1])%list)) with
   | Resolved (e, t) => mkDetailState e (events t) false None
   | Rejected err =>
       mkDetailState (detail_enrollment st) (detail_events st)
                     false (Some (Error_message err))
   end, (w ++ [c1; c2])%list).
Proof.
  intros NE c1 c2.
  assert (E : (id =? "") = false) by now apply String.eqb_neq.
  unfold useEnrollmentDetail_load. rewrite E.
  rewrite getEnrollment_settles. fold c1.
  rewrite getTimeline_settles. fold c2. simpl fst.
  rewrite <- app_assoc. simpl.
  destruct (Promise_all2 _ _ _) as [[e t]|err]; [reflexivity|].
  now rewrite instanceof_Error_always.
Qed.

(** X9. [load] of [useEnrollmentDetail] does nothing at all without an
    id ([null] or the empty string): no request, no change of state.
    With an id it always makes the same two requests, the enrollment
    first and the timeline second, whatever becomes of the first, and
    ends with [loading] off.  The state is replaced only when both
    succeed; if either fails, the enrollment and the events shown before
    both stay (an enrollment that did arrive is dropped), and the error
    is the message of one of the rejections. *)
Theorem useEnrollmentDetail_load_all_or_nothing
  (second_first : bool) (st : DetailState) (w : World) :
  useEnrollmentDetail_load None second_first st w = (st, w)
  /\ useEnrollmentDetail_load (Some "") second_first st w = (st, w)
  /\ forall id, id <> "" ->
       let c1 := call_of (GetEnrollment id) in
       let c2 := call_of (GetTimeline id) in
       let o1 := fst (getEnrollment id w) in
       let o2 := fst (getTimeline id (w ++ [c1])%list) in
       let st' := fst (useEnrollmentDetail_load (Some id) second_first st w) in
       snd (useEnrollmentDetail_load (Some id) second_first st w)
       = (w ++ [c1; c2])%list
       /\ detail_loading st' = false
       /\ (forall e t, o1 = Resolved e -> o2 = Resolved t ->
             st' = mkDetailState e (events t) false None)
       /\ (forall err, o1 = Rejected err \/ o2 = Rejected err ->
             detail_enrollment st' = detail_enrollment st
             /\ detail_events st' = detail_events st
             /\ exists err',
                  (o1 = Rejected err' \/ o2 = Rejected err')
                  /\ detail_error st' = Some (Error_message err'))
       /\ (forall r1 e2,
             network w c1 = Responded r1 -> ok r1 = true ->
             network (w ++ [c1])%list c2 = Failed e2 ->
             detail_enrollment st' = detail_enrollment st
             /\ detail_error st' = Some (Error_message e2)).
Proof.
  split; [reflexivity|]. split; [reflexivity|].
  intros id NE c1 c2 o1 o2 st'.
  pose proof (useEnrollmentDetail_load_runs second_first st w NE) as L.
  cbv zeta in L. fold c1 c2 o1 o2 in L.
  unfold st'. rewrite L. simpl. clear L st'.
  split; [reflexivity|].
  split. { destruct (Promise_all2 _ _ _) as [[e t]|err]; reflexivity. }
  split. { intros e t -> ->. reflexivity. }
  split.
  { intros err H.
    destruct (Promise_all2 second_first o1 o2) as [[e t]|err'] eqn:P.
    - destruct o1, o2; simpl in P; try discriminate.
      destruct H; discriminate.
    - simpl. repeat split. exists err'. split; [|reflexivity].
      now apply Promise_all2_rejected with second_first. }
  intros r1 e2 N1 K1 N2.
  unfold o1, o2. rewrite getEnrollment_settles, getTimeline_settles.
  fold c1 c2. rewrite N1, N2. simpl. rewrite K1. simpl. auto.
Qed.

(** *** The actions of the detail page *)

(** X10. The request [runAction] starts with.  Suppress posts the chosen
    reason as it is.  Escalate posts the reason typed in, and
    ["manual_escalation"] when nothing was typed.  Both go to the path of
    the enrollment on the page, with its [id] converted to a string. *)
Theorem runAction_first_request
  (action : Action) (enrollmentId : string) (second_first : bool)
  (st : DetailPageState) (w : World) (id : string) :
  truthy (detail_enrollment (page_detail st)) = true ->
  ToString Number_toString (Get (detail_enrollment (page_detail st)) "id")
  = Resolved id ->
  let sent (segment reason : string) :=
    mkFetchCall
      (API_BASE_URL ++ "/api/enrollments/" ++ id ++ segment)
      (mkRequestInit (Some "POST")
         (Some [("Content-Type", "application/json")])
         (Some (JSON_stringify (JObject [("reason", JString reason)])))) in
  exists rest,
    snd (runAction action enrollmentId second_first st w)
    = (w ++ match action with
            | suppress => sent "/suppress" (page_suppressReason st)
            | escalate =>
                if page_escalateReason st =? ""
                then sent "/escalate" "manual_escalation"
                else sent "/escalate" (page_escalateReason st)
            end :: rest)%list.
Proof.
  intros T I sent. unfold runAction. rewrite T, I. simpl negb. cbv iota.
  destruct action.
  - rewrite suppressEnrollment_settles.
    destruct (settle_plain _).
    + destruct (useEnrollmentDetail_load _ _ _ _) as [d w2] eqn:L.
      assert (S : exists rest, w2 = ((w ++ [call_of (SuppressEnrollment id
                  (ReasonPayload (page_suppressReason st)))]) ++ rest)%list).
      { unfold useEnrollmentDetail_load in L.
        destruct (enrollmentId =? ""); [injection L as _ <-; exists [];
          now rewrite app_nil_r|].
        rewrite getEnrollment_settles, getTimeline_settles in L.
        destruct (Promise_all2 _ _ _) as [[e t]|err];
          injection L as _ <-; rewrite <- app_assoc; eauto. }
      destruct S as [rest ->]. exists rest. simpl snd.
      rewrite <- app_assoc. reflexivity.
    + exists []. reflexivity.
  - rewrite escalateEnrollment_settles.
    destruct (settle_plain _).
    + destruct (useEnrollmentDetail_load _ _ _ _) as [d w2] eqn:L.
      assert (S : exists rest, w2 = ((w ++ [call_of (EscalateEnrollment id
                  (ReasonPayload (if page_escalateReason st =? ""
                                  then "manual_escalation"
                                  else page_escalateReason st)))]) ++ rest)%list).
      { unfold useEnrollmentDetail_load in L.
        destruct (enrollmentId =? ""); [injection L as _ <-; exists [];
          now rewrite app_nil_r|].
        rewrite getEnrollment_settles, getTimeline_settles in L.
        destruct (Promise_all2 _ _ _) as [[e t]|err];
          injection L as _ <-; rewrite <- app_assoc; eauto. }
      destruct S as [rest ->]. exists rest. simpl snd.
      rewrite <- app_assoc.
      destruct (page_escalateReason st =? ""); reflexivity.
    + exists []. destruct (page_escalateReason st =? ""); reflexivity.
Qed.

Lemma invoke_action (action : Action) (id : string) (st : DetailPageState)
  (w : World) :
  let op := action_operation action id st in
  fst (invoke op w) =
  match settle_plain (network w (call_of op)) with
  | Resolved v => Resolved (Plain v)
  | Rejected e => Rejected e
  end.
Proof.
  intros op. rewrite invoke_settles. unfold settle_plain.
  destruct (network w (call_of op)) as [r|e]; [|reflexivity].
  destruct (ok r); [|reflexivity]. unfold op. now destruct action.
Qed.

(** X11. When the request of an action fails, [runAction] rejects with
    that failure and does nothing more: no refresh is requested, the
    state of the hook, its error included, is as before, and [saving] is
    off again.  Nothing on the page shows that the action failed. *)
Theorem runAction_failure_is_silent
  (action : Action) (enrollmentId : string) (second_first : bool)
  (st : DetailPageState) (w : World) (id : string) (err : Thrown) :
  truthy (detail_enrollment (page_detail st)) = true ->
  ToString Number_toString (Get (detail_enrollment (page_detail st)) "id")
  = Resolved id ->
  let op := action_operation action id st in
  fst (invoke op w) = Rejected err ->
  runAction action enrollmentId second_first st w =
  (Rejected err,
   mkDetailPageState (page_detail st) (page_suppressReason st)
                     (page_escalateReason st) false,
   (w ++ [call_of op])%list).
Proof.
  intros T I op R. unfold op in *. rewrite invoke_action in R.
  unfold runAction. rewrite T, I. simpl negb. cbv iota.
  destruct action; simpl action_operation in *.
  - rewrite suppressEnrollment_settles.
    destruct (settle_plain _); [discriminate|]. now injection R as ->.
  - rewrite escalateEnrollment_settles.
    destruct (settle_plain _); [discriminate|]. now injection R as ->.
Qed.

(** X12. When the request of an action succeeds, [runAction] refreshes
    the page and then resolves, whether or not the refresh succeeded:
    three requests in all (the POST, the enrollment, the timeline), the
    state of the hook is what its [load] leaves, and [saving] is off. *)
Theorem runAction_then_refresh
  (action : Action) (enrollmentId : string) (second_first : bool)
  (st : DetailPageState) (w : World) (id : string) (result : Result) :
  truthy (detail_enrollment (page_detail st)) = true ->
  ToString Number_toString (Get (detail_enrollment (page_detail st)) "id")
  = Resolved id ->
  enrollmentId <> "" ->
  let op := action_operation action id st in
  fst (invoke op w) = Resolved result ->
  let refreshed :=
    useEnrollmentDetail_load (Some enrollmentId) second_first
      (page_detail st) (w ++ [call_of op])%list in
  runAction action enrollmentId second_first st w =
  (Resolved tt,
   mkDetailPageState (fst refreshed) (page_suppressReason st)
                     (page_escalateReason st) false,
   (w ++ [call_of op;
          call_of (GetEnrollment enrollmentId);
          call_of (GetTimeline enrollmentId)])%list).
Proof.
  intros T I NE op R refreshed. unfold op in *. rewrite invoke_action in R.
  assert (W : snd refreshed
              = (w ++ [call_of (action_operation action id st);
                       call_of (GetEnrollment enrollmentId);
                       call_of (GetTimeline enrollmentId)])%list).
  { unfold refreshed.
    rewrite (useEnrollmentDetail_load_runs second_first (page_detail st)
               (w ++ [call_of (action_operation action id st)])%list NE).
    simpl snd. now rewrite <- app_assoc. }
  unfold runAction. rewrite T, I. simpl negb. cbv iota.
  destruct action; simpl action_operation in *.
  - rewrite suppressEnrollment_settles.
    destruct (settle_plain _); [|discriminate].
    fold refreshed. rewrite <- W. now destruct refreshed.
  - rewrite escalateEnrollment_settles.
    destruct (settle_plain _); [|discriminate].
    fold refreshed. rewrite <- W. now destruct refreshed.
Qed.

End WithEnvironment.

(* ================================================================== *)
(** ** Runs on the sample environment *)
(* ================================================================== *)

Local Abbreviation parse := sample_JSON_parse.
Local Abbreviation stringify := sample_JSON_stringify.
Local Abbreviation number := sample_Number_toString.

(** Status 404 with the body [{"message":"not found"}]: the error carries
    the message of the server and the status. *)
Example not_found_404 (op : Operation) :
  fst (invoke None parse stringify number (always 404 text_not_found) op [])
  = Rejected (ThrowApiError
      (mkApiError "not found" 404 (JObject [("message", JString "not found")]))).
Proof. now rewrite invoke_settles. Qed.

(** Status 500 with an empty body: the synthesized message. *)
Example empty_500 (op : Operation) :
  fst (invoke None parse stringify number (always 500 "") op [])
  = Rejected (ThrowApiError (mkApiError "Request failed (500)" 500 JNull)).
Proof. now rewrite invoke_settles. Qed.

(** A body that is not JSON is kept as a string. *)
Example html_502 (op : Operation) :
  fst (invoke None parse stringify number (always 502 "<html>") op [])
  = Rejected (ThrowApiError
      (mkApiError "Request failed (502)" 502 (JString "<html>"))).
Proof. now rewrite invoke_settles. Qed.

(** The request of a suppression, as it goes on the wire. *)
Example suppress_call :
  snd (suppressEnrollment (Some "https://api.example/") parse stringify number
         (always 200 text_suppressed) "e1"
         (JObject [("reason", JString "paid")]) [])
  = [mkFetchCall "https://api.example/api/enrollments/e1/suppress"
       (mkRequestInit (Some "POST")
          (Some [("Content-Type", "application/json")])
          (Some ("{" ++ quote ++ "reason" ++ quote ++ ":"
                     ++ quote ++ "paid" ++ quote ++ "}")))].
Proof. reflexivity. Qed.

(** [String(...)] on a few values: an array joins its elements and
    prints [null] as nothing, a plain object prints as
    ["[object Object]"], an object that shadows [toString] cannot be
    converted. *)
Example ToString_samples :
  ToString number (JArray [JNull; JString "a"; JBool true]) = Resolved ",a,true"
  /\ ToString number (JObject [("code", JString "E1")])
     = Resolved "[object Object]"
  /\ ToString number (JObject [("toString", JNull)]) = Rejected cannot_convert
  /\ ToString number (JArray [JString "a"; JObject [("toString", JNull)]])
     = Rejected cannot_convert.
Proof. repeat split. Qed.

(** The same array under the three envelopes. *)
Example three_envelopes_one_array :
  fst (listEnrollments None parse number (always 200 "[true]") ACTIVE [])
  = Resolved (JArray [JBool true])
  /\ fst (listEnrollments None parse number (always 200 text_both_fields)
            PAID_EXIT [])
     = Resolved (JArray [JBool true])
  /\ fst (listEnrollments None parse number (always 200 text_data_field)
            SUPPRESSED [])
     = Resolved (JArray [JBool true]).
Proof. repeat split. Qed.

(** Payloads that are no list envelope: [null], and a text that is not
    JSON. *)
Example list_rejects_null_and_text :
  fst (listEnrollments None parse number (always 200 "null") ACTIVE [])
  = Rejected (ThrowApiError
      (mkApiError "Expected enrollments array from API" 200 JNull))
  /\ fst (listEnrollments None parse number (always 200 "<html>") ACTIVE [])
     = Rejected (ThrowApiError
         (mkApiError "Expected enrollments array from API" 200
            (JString "<html>"))).
Proof. repeat split. Qed.

(** A bare array is no timeline. *)
Example timeline_rejects_bare_array :
  fst (getTimeline None parse number (always 200 "[]") "e1" [])
  = Rejected (ThrowApiError
      (mkApiError "Expected timeline response with events[]" 200 (JArray []))).
Proof. reflexivity. Qed.

(** C2, at the input where the code departs from it.  The server answers
    500 with the body [{"message":{"toString":null}}].  The body is an
    object with a [message] member, so [request] evaluates
    [String(payload.message)]; the member is an object whose own
    [toString] is not callable, the conversion throws, and every
    operation rejects with that TypeError: no [ApiError], no status, no
    payload. *)
Theorem C2_message_conversion_throws (op : Operation) :
  fst (invoke None parse stringify number
         (always 500 text_message_object) op [])
  = Rejected (ThrowTypeError "Cannot convert object to primitive value")
  /\ ~ resolves_or_rejects_with_ApiError
         (fst (invoke None parse stringify number
                 (always 500 text_message_object) op [])).
Proof.
  rewrite invoke_settles. split; [reflexivity|].
  intros [[result H]|[e H]]; discriminate.
Qed.

(** C7 fails where the transport itself fails: with the network down,
    [fetch] rejects, and the call rejects with that TypeError, which is
    not an [ApiError]. *)
Lemma C7_transport_failure_is_no_ApiError :
  ~ resolves_or_rejects_with_ApiError
      (fst (invoke None parse stringify number unreachable
              (GetEnrollment "e1") [])).
Proof.
  intros [[result H]|[e H]]; discriminate.
Qed.

Lemma foo_is_no_envelope (l : list value) :
  ~ ListEnvelope (parsed parse text_foo_field) l.
Proof.
  intros H. vm_compute in H. inversion H; discriminate.
Qed.

Lemma C1_list_envelopes_witness :
  let r := mkResponse 200 text_data_field in
  always 200 text_data_field []
    (call_of None stringify (ListEnrollments ACTIVE)) = Responded r
  /\ ok r = true
  /\ fst (listEnrollments None parse number (always 200 text_data_field)
            ACTIVE [])
     = Resolved (JArray [JBool true]).
Proof.
  cbv zeta. split; [reflexivity|]. split; [reflexivity|].
  destruct (@C1_list_envelopes None parse stringify number
              (always 200 text_data_field) ACTIVE []
              (mkResponse 200 text_data_field) eq_refl eq_refl)
    as (_ & _ & _ & _ & D & _).
  apply (D [("data", JArray [JBool true])]); reflexivity.
Defined.

Lemma C3_list_malformed_witness :
  let r := mkResponse 200 text_foo_field in
  always 200 text_foo_field []
    (call_of None stringify (ListEnrollments ACTIVE)) = Responded r
  /\ ok r = true
  /\ (forall l, ~ ListEnvelope (parsed parse (resp_text r)) l)
  /\ fst (listEnrollments None parse number (always 200 text_foo_field)
            ACTIVE [])
     = Rejected (ThrowApiError
         (mkApiError "Expected enrollments array from API" 200
            (JObject [("foo", JArray [JBool true])]))).
Proof.
  cbv zeta. split; [reflexivity|]. split; [reflexivity|].
  split; [exact foo_is_no_envelope|].
  exact (@C3_list_malformed None parse stringify number
           (always 200 text_foo_field) ACTIVE []
           (mkResponse 200 text_foo_field) eq_refl eq_refl
           foo_is_no_envelope).
Defined.

Lemma C4_timeline_envelope_witness :
  let r := mkResponse 200 text_no_events in
  always 200 text_no_events []
    (call_of None stringify (GetTimeline "e1")) = Responded r
  /\ ok r = true
  /\ fst (getTimeline None parse number (always 200 text_no_events) "e1" [])
     = Resolved (mkTimelineResponse (JArray [])).
Proof.
  cbv zeta. split; [reflexivity|]. split; [reflexivity|].
  destruct (@C4_timeline_envelope None parse stringify number
              (always 200 text_no_events) "e1" []
              (mkResponse 200 text_no_events) eq_refl eq_refl)
    as (_ & E & _).
  apply E. reflexivity.
Defined.

Lemma C6_body_returned_as_received_witness :
  let r := mkResponse 200 text_suppressed in
  ok r = true
  /\ fst (suppressEnrollment None parse stringify number
            (always 200 text_suppressed) "e1"
            (JObject [("reason", JString "paid")]) [])
     = Resolved (JObject [("status", JString "SUPPRESSED")]).
Proof.
  cbv zeta. split; [reflexivity|].
  destruct (@C6_body_returned_as_received None parse stringify number
              (always 200 text_suppressed) []
              (mkResponse 200 text_suppressed) eq_refl)
    as (_ & _ & S & _).
  apply (S "e1" (JObject [("reason", JString "paid")])). reflexivity.
Defined.

Lemma C9_enrollments_before_data_witness :
  let r := mkResponse 200 text_both_fields in
  let o := [("enrollments", JArray [JBool true]);
            ("data", JArray [JBool false])] in
  always 200 text_both_fields []
    (call_of None stringify (ListEnrollments ACTIVE)) = Responded r
  /\ ok r = true
  /\ parsed parse (resp_text r) = JObject o
  /\ own "enrollments" o = Some (JArray [JBool true])
  /\ own "data" o = Some (JArray [JBool false])
  /\ fst (listEnrollments None parse number (always 200 text_both_fields)
            ACTIVE [])
     = Resolved (JArray [JBool true]).
Proof.
  cbv zeta. repeat (split; [reflexivity|]).
  exact (@C9_enrollments_before_data None parse stringify number
           (always 200 text_both_fields) ACTIVE []
           (mkResponse 200 text_both_fields)
           [("enrollments", JArray [JBool true]);
            ("data", JArray [JBool false])]
           [JBool true] [JBool false]
           eq_refl eq_refl eq_refl eq_refl eq_refl).
Defined.


(** *** Runs of the further properties *)

Lemma empty_body_on_success_witness :
  let r := mkResponse 204 "" in
  always 204 "" [] (call_of None stringify (GetEnrollment "e1")) = Responded r
  /\ ok r = true
  /\ resp_text r = ""
  /\ fst (invoke None parse stringify number (always 204 "")
            (GetEnrollment "e1") [])
     = Resolved (Plain JNull).
Proof.
  cbv zeta. repeat (split; [reflexivity|]).
  exact (@empty_body_on_success None parse stringify number (always 204 "")
           (GetEnrollment "e1") [] (mkResponse 204 "")
           eq_refl eq_refl eq_refl).
Defined.

Lemma html_is_not_empty : resp_text (mkResponse 200 "<html>") <> "".
Proof. discriminate. Qed.

Lemma text_body_on_success_witness :
  let r := mkResponse 200 "<html>" in
  always 200 "<html>" [] (call_of None stringify (ListEnrollments ACTIVE))
  = Responded r
  /\ ok r = true
  /\ resp_text r <> ""
  /\ parse (resp_text r) = Rejected (ThrowSyntaxError "Unexpected token")
  /\ fst (invoke None parse stringify number (always 200 "<html>")
            (ListEnrollments ACTIVE) [])
     = Rejected (ThrowApiError
         (mkApiError "Expected enrollments array from API" 200
            (JString "<html>"))).
Proof.
  cbv zeta. split; [reflexivity|]. split; [reflexivity|].
  split; [exact html_is_not_empty|]. split; [reflexivity|].
  exact (@text_body_on_success None parse stringify number
           (always 200 "<html>") (ListEnrollments ACTIVE) []
           (mkResponse 200 "<html>") (ThrowSyntaxError "Unexpected token")
           eq_refl eq_refl html_is_not_empty eq_refl).
Defined.

Lemma rejection_kinds_witness :
  let r := mkResponse 500 text_message_object in
  always 500 text_message_object []
    (call_of None stringify (GetEnrollment "e1")) = Responded r
  /\ fst (invoke None parse stringify number
            (always 500 text_message_object) (GetEnrollment "e1") [])
     = Rejected cannot_convert
  /\ (is_ApiError cannot_convert = true \/ cannot_convert = cannot_convert).
Proof.
  cbv zeta. split; [reflexivity|]. split; [reflexivity|].
  exact (proj1 (@rejection_kinds None parse stringify number
                  (always 500 text_message_object) (GetEnrollment "e1") []
                  (mkResponse 500 text_message_object) cannot_convert
                  eq_refl eq_refl)).
Defined.

Lemma ApiError_status_discriminates_witness :
  let r := mkResponse 404 text_not_found in
  let e := mkApiError "not found" 404
             (JObject [("message", JString "not found")]) in
  always 404 text_not_found []
    (call_of None stringify (GetTimeline "e1")) = Responded r
  /\ fst (invoke None parse stringify number (always 404 text_not_found)
            (GetTimeline "e1") [])
     = Rejected (ThrowApiError e)
  /\ (status e = 200%N <-> ok r = true).
Proof.
  cbv zeta. split; [reflexivity|]. split; [reflexivity|].
  exact (proj1 (proj2 (@ApiError_status_discriminates None parse stringify
                         number (always 404 text_not_found)
                         (GetTimeline "e1") []
                         (mkResponse 404 text_not_found)
                         (mkApiError "not found" 404
                            (JObject [("message", JString "not found")]))
                         eq_refl eq_refl))).
Defined.

Lemma not_found_message_is_primitive (o : list (string * value)) (m : value) :
  parsed parse (resp_text (mkResponse 404 text_not_found)) = JObject o ->
  own "message" o = Some m ->
  primitive m = true.
Proof.
  intros B M. vm_compute in B. injection B as <-.
  vm_compute in M. now injection M as <-.
Qed.

Lemma primitive_message_gives_ApiError_witness :
  let r := mkResponse 404 text_not_found in
  always 404 text_not_found []
    (call_of None stringify (GetEnrollment "e1")) = Responded r
  /\ ok r = false
  /\ exists text,
       error_message parse number r = Resolved text
       /\ fst (invoke None parse stringify number (always 404 text_not_found)
                 (GetEnrollment "e1") [])
          = Rejected (ThrowApiError
                        (mkApiError text 404 (parsed parse (resp_text r)))).
Proof.
  cbv zeta. split; [reflexivity|]. split; [reflexivity|].
  exact (@primitive_message_gives_ApiError None parse stringify number
           (always 404 text_not_found) (GetEnrollment "e1") []
           (mkResponse 404 text_not_found)
           eq_refl eq_refl not_found_message_is_primitive).
Defined.

Lemma reason_text_is_not_empty : stringify (ReasonPayload "paid") <> "".
Proof. discriminate. Qed.

Lemma echo_round_trip_witness :
  let payload := ReasonPayload "paid" in
  let op := SuppressEnrollment "e1" payload in
  let r := mkResponse 200 text_reason_paid in
  argument_of op = Some payload
  /\ nullish payload = false
  /\ stringify payload <> ""
  /\ echo_JSON_parse (stringify payload) = Resolved payload
  /\ echo [] (call_of None stringify op) = Responded r
  /\ ok r = true
  /\ Some (resp_text r) = init_body (call_init (call_of None stringify op))
  /\ fst (invoke None echo_JSON_parse stringify number echo op [])
     = Resolved (Plain payload).
Proof.
  cbv zeta. split; [reflexivity|]. split; [reflexivity|].
  split; [exact reason_text_is_not_empty|].
  repeat (split; [reflexivity|]).
  exact (@echo_round_trip None echo_JSON_parse stringify number echo
           (SuppressEnrollment "e1" (ReasonPayload "paid"))
           (ReasonPayload "paid") [] (mkResponse 200 text_reason_paid)
           eq_refl eq_refl reason_text_is_not_empty eq_refl
           eq_refl eq_refl eq_refl).
Defined.

Lemma runAction_first_request_witness :
  truthy (detail_enrollment (page_detail sample_page)) = true
  /\ ToString number (Get (detail_enrollment (page_detail sample_page)) "id")
     = Resolved "e1"
  /\ exists rest,
       snd (runAction None parse stringify number
              (always 200 text_suppressed) escalate "e1" false sample_page [])
       = mkFetchCall "/api/enrollments/e1/escalate"
           (mkRequestInit (Some "POST")
              (Some [("Content-Type", "application/json")])
              (Some (stringify
                       (JObject [("reason", JString "manual_escalation")]))))
         :: rest.
Proof.
  split; [reflexivity|]. split; [reflexivity|].
  exact (@runAction_first_request None parse stringify number
           (always 200 text_suppressed) escalate "e1" false sample_page []
           "e1" eq_refl eq_refl).
Defined.

Lemma runAction_failure_is_silent_witness :
  truthy (detail_enrollment (page_detail sample_page)) = true
  /\ ToString number (Get (detail_enrollment (page_detail sample_page)) "id")
     = Resolved "e1"
  /\ fst (invoke None parse stringify number unreachable
            (action_operation suppress "e1" sample_page) [])
     = Rejected (ThrowTypeError "Failed to fetch")
  /\ runAction None parse stringify number unreachable
       suppress "e1" false sample_page []
     = (Rejected (ThrowTypeError "Failed to fetch"), sample_page,
        [call_of None stringify (action_operation suppress "e1" sample_page)]).
Proof.
  repeat (split; [reflexivity|]).
  exact (@runAction_failure_is_silent None parse stringify number unreachable
           suppress "e1" false sample_page [] "e1"
           (ThrowTypeError "Failed to fetch") eq_refl eq_refl eq_refl).
Defined.

Lemma e1_is_not_empty : "e1" <> "".
Proof. discriminate. Qed.

Lemma runAction_then_refresh_witness :
  truthy (detail_enrollment (page_detail sample_page)) = true
  /\ ToString number (Get (detail_enrollment (page_detail sample_page)) "id")
     = Resolved "e1"
  /\ "e1" <> ""
  /\ fst (invoke None parse stringify number (always 200 text_suppressed)
            (action_operation suppress "e1" sample_page) [])
     = Resolved (Plain (JObject [("status", JString "SUPPRESSED")]))
  /\ snd (runAction None parse stringify number (always 200 text_suppressed)
            suppress "e1" false sample_page [])
     = [call_of None stringify (action_operation suppress "e1" sample_page);
        call_of None stringify (GetEnrollment "e1");
        call_of None stringify (GetTimeline "e1")].
Proof.
  split; [reflexivity|]. split; [reflexivity|].
  split; [exact e1_is_not_empty|]. split; [reflexivity|].
  rewrite (@runAction_then_refresh None parse stringify number
             (always 200 text_suppressed) suppress "e1" false sample_page []
             "e1" (Plain (JObject [("status", JString "SUPPRESSED")]))
             eq_refl eq_refl e1_is_not_empty eq_refl).
  reflexivity.
Defined.

End Client.

(* ================================================================== *)
(** ** Properties of the helpers *)
(* ================================================================== *)

Module ViewProperties.
Import Js View.

(** *** Class names *)

Lemma append_assoc (a b c : string) : (a ++ b) ++ c = a ++ b ++ c.
Proof. induction a as [|x a IH]; simpl; [reflexivity|]. now rewrite IH. Qed.

Lemma concat_app (sep : string) (xs ys : list string) :
  xs <> [] -> ys <> [] ->
  String.concat sep (xs ++ ys)
  = String.concat sep xs ++ sep ++ String.concat sep ys.
Proof.
  intros NX NY. induction xs as [|x xs IH]; [contradiction|].
  destruct xs as [|x' xs'].
  - simpl. destruct ys; [contradiction|reflexivity].
  - change (String.concat sep ((x :: x' :: xs') ++ ys))
      with (x ++ sep ++ String.concat sep ((x' :: xs') ++ ys)).
    rewrite IH by discriminate.
    change (String.concat sep (x :: x' :: xs'))
      with (x ++ sep ++ String.concat sep (x' :: xs')).
    now rewrite !append_assoc.
Qed.

Lemma kept_name_is_not_empty (c : ClassValue) :
  Boolean c = true -> class_text c <> "".
Proof.
  destruct c as [name| | |]; try discriminate. simpl.
  destruct (String.eqb_spec name ""); [discriminate|auto].
Qed.

Lemma cx_empty_iff (classes : list ClassValue) :
  cx classes = "" <-> filter Boolean classes = [].
Proof.
  unfold cx. split; [|now intros ->].
  destruct (filter Boolean classes) as [|c rest] eqn:F; [reflexivity|].
  assert (K : Boolean c = true).
  { assert (I : In c (filter Boolean classes)) by (rewrite F; now left).
    now apply filter_In in I. }
  apply kept_name_is_not_empty in K. simpl.
  destruct (class_text c) as [|x t]; [contradiction|].
  destruct (map class_text rest); discriminate.
Qed.

(** X13. [cx] (and [cn]) pays no attention to an argument that is
    [null], [undefined], [false] or the empty string, wherever it
    stands: the result is the same as without it, and no stray space is
    left behind. *)
Theorem cx_ignores_falsy (before after : list ClassValue) (c : ClassValue) :
  Boolean c = false ->
  cx (before ++ c :: after) = cx (before ++ after).
Proof.
  intros F. unfold cx. rewrite !filter_app. simpl. now rewrite F.
Qed.

(** X14. Class lists add up: [cx] of two lists put together is the two
    results joined by one space, and just the other result when one
    side contributes no class. *)
Theorem cx_app (xs ys : list ClassValue) :
  cx (xs ++ ys) =
  if cx xs =? "" then cx ys
  else if cx ys =? "" then cx xs
  else cx xs ++ " " ++ cx ys.
Proof.
  destruct (String.eqb_spec (cx xs) "") as [EX|NX].
  - apply cx_empty_iff in EX. unfold cx. now rewrite filter_app, EX.
  - destruct (String.eqb_spec (cx ys) "") as [EY|NY].
    + apply cx_empty_iff in EY. unfold cx.
      now rewrite filter_app, EY, app_nil_r.
    + unfold cx. rewrite filter_app, map_app. apply concat_app.
      * intros E. apply NX. apply cx_empty_iff.
        now apply map_eq_nil in E.
      * intros E. apply NY. apply cx_empty_iff.
        now apply map_eq_nil in E.
Qed.

(** The check [runSelfTests] makes: [cx("a", null, "b") === "a b"]. *)
Example cx_self_test : cx [ClassName "a"; ClassNull; ClassName "b"] = "a b".
Proof. reflexivity. Qed.

(** *** The work queue *)

Lemma filter_idempotent {A : Type} (f : A -> bool) (l : list A) :
  filter f (filter f l) = filter f l.
Proof.
  induction l as [|x l IH]; [reflexivity|]. simpl.
  destruct (f x) eqn:E; simpl; rewrite ?E; now rewrite IH.
Qed.

Lemma filter_exclusive {A : Type} (f g : A -> bool) (l : list A) :
  (forall x, f x = true -> g x = false) ->
  filter g (filter f l) = [].
Proof.
  intros X. induction l as [|x l IH]; [reflexivity|]. simpl.
  destruct (f x) eqn:E; [simpl; now rewrite (X x E)|exact IH].
Qed.

(** X15. Applying a queue mode twice is the same as applying it once,
    the rows of one filter contain none of the other, and the mode "all"
    changes nothing before or after a filter. *)
Theorem applyQueueMode_composes (rows : list QueueRow) (mode : QueueMode) :
  applyQueueMode (applyQueueMode rows mode) mode = applyQueueMode rows mode
  /\ applyQueueMode (applyQueueMode rows ModeEscalations) ModePromises = []
  /\ applyQueueMode (applyQueueMode rows ModePromises) ModeEscalations = []
  /\ applyQueueMode (applyQueueMode rows ModeAll) mode
     = applyQueueMode rows mode
  /\ applyQueueMode (applyQueueMode rows mode) ModeAll
     = applyQueueMode rows mode.
Proof.
  repeat split; try reflexivity.
  - destruct mode; simpl; auto using filter_idempotent.
  - simpl. apply filter_exclusive. intros r. unfold is_escalation, is_promise.
    now destruct (row_status r).
  - simpl. apply filter_exclusive. intros r. unfold is_escalation, is_promise.
    now destruct (row_status r).
Qed.

(** X16. The two filters and the managed rows split the queue: every
    row is counted once, among the escalations, among the promises, or
    among the rows that only the mode "all" shows; and a filtered view
    never shows a managed row. *)
Theorem applyQueueMode_partitions (rows : list QueueRow) :
  let managed r := match row_status r with Managed => true | _ => false end in
  length rows
  = length (applyQueueMode rows ModeEscalations)
    + length (applyQueueMode rows ModePromises)
    + length (filter managed rows)
  /\ (forall mode r,
        In r (applyQueueMode rows mode) -> row_status r = Managed ->
        mode = ModeAll).
Proof.
  intros managed. split.
  - induction rows as [|r rows IH]; [reflexivity|]. simpl in *.
    unfold is_escalation, is_promise, managed in *.
    destruct (row_status r); simpl; lia.
  - intros mode r I M. destruct mode; [reflexivity| |]; simpl in I;
      apply filter_In in I as [_ I]; unfold is_escalation, is_promise in I;
      rewrite M in I; discriminate.
Qed.

(** The check [runSelfTests] makes on the filter. *)
Example applyQueueMode_self_test :
  length (applyQueueMode [mkQueueRow "x" Escalation "A" "" "$0" "1"]
                         ModeEscalations) = 1.
Proof. reflexivity. Qed.

(** *** Durations *)


(** X18. A negative duration loses its minutes: only the remainder of
    the division by sixty is shown, with its sign, so [-65] reads
    ["-5s"]. *)
Theorem fmtDuration_negative (seconds : Z) :
  (seconds < 0)%Z ->
  fmtDuration (Some seconds) = Z_text (Z.rem seconds 60) ++ "s"
  /\ (-60 < Z.rem seconds 60 <= 0)%Z.
Proof.
  intros N. unfold fmtDuration.
  assert (M : (seconds / 60 < 0)%Z)
    by (Z.to_euclidean_division_equations; lia).
  assert (F : (0 <? seconds / 60)%Z = false) by (apply Z.ltb_ge; lia).
  rewrite F. split; [reflexivity|].
  Z.to_euclidean_division_equations; lia.
Qed.

Example fmtDuration_samples :
  fmtDuration None = "—"
  /\ fmtDuration (Some 0%Z) = "0s"
  /\ fmtDuration (Some 59%Z) = "59s"
  /\ fmtDuration (Some 60%Z) = "1m 0s"
  /\ fmtDuration (Some 135%Z) = "2m 15s"
  /\ fmtDuration (Some (-65)%Z) = "-5s".
Proof. repeat split. Qed.

(** *** The route *)



(** X20. Three of the five sidebar entries have no page of their own:
    "escalations", "reports" and "settings" show the dashboard.  A
    sidebar entry always closes the detail page.  And opening a customer
    whose id is the empty string opens nothing: the list page stays. *)
Theorem pages_of_the_route (r : Route) :
  (forall k,
     page (handle r (Navigate k))
     = match k with customers => CustomersPage | _ => DashboardPage end
     /\ active (handle r (Navigate k)) = k)
  /\ (detail_of r = None ->
      page r = match tab r with customers => CustomersPage
                              | _ => DashboardPage end)
  /\ (detail_of r = None -> page (handle r (OpenCustomer "")) = page r).
Proof.
  split; [|split].
  - intros k. split; now destruct k.
  - intros D. unfold page. now rewrite D.
  - intros D. unfold handle, page. rewrite D. now destruct (tab r).
Qed.

(** The route after a series of clicks, from the first screen. *)
Lemma route_invariant_step (r : Route) (c : Click) :
  (forall id, detail_of r = Some id -> tab r = dashboard \/ tab r = customers) ->
  forall id, detail_of (handle r c) = Some id ->
             tab (handle r c) = dashboard \/ tab (handle r c) = customers.
Proof.
  intros I id. unfold handle, page.
  destruct c as [k|id'|]; simpl.
  - discriminate.
  - destruct (detail_of r) as [x|] eqn:D; [eauto|].
    destruct (tab r); simpl; auto.
  - destruct (detail_of r) as [x|] eqn:D; [discriminate|].
    destruct (tab r); rewrite D; discriminate.
Qed.

(** X21. Whatever the user clicks, a detail page is only ever open
    under the tab "dashboard" or "customers", so going back from it
    always lands on one of those two pages. *)
Theorem detail_only_under_two_tabs (clicks : list Click) (id : string) :
  let r := fold_left handle clicks initial_route in
  detail_of r = Some id ->
  (tab r = dashboard \/ tab r = customers)
  /\ (page (handle r Back) = DashboardPage
      \/ page (handle r Back) = CustomersPage).
Proof.
  intros r D.
  assert (I : forall x, detail_of r = Some x ->
                        tab r = dashboard \/ tab r = customers).
  { unfold r. clear r D.
    assert (G : forall start,
              (forall x, detail_of start = Some x ->
                         tab start = dashboard \/ tab start = customers) ->
              forall x, detail_of (fold_left handle clicks start) = Some x ->
                tab (fold_left handle clicks start) = dashboard
                \/ tab (fold_left handle clicks start) = customers).
    { induction clicks as [|c clicks IH]; intros start S; [exact S|].
      simpl. apply IH. now apply route_invariant_step. }
    apply G. discriminate. }
  split; [now apply (I id)|].
  unfold handle, page. rewrite D. simpl.
  destruct (I id D) as [-> | ->]; auto.
Qed.

(** *** Maps in insertion order *)

Lemma lookup_upsert_same {V : Type} (k : string) (v : V) (m : list (string * V)) :
  lookup k (upsert k v m) = Some v.
Proof.
  induction m as [|[k' v'] m IH]; simpl.
  - now rewrite String.eqb_refl.
  - destruct (k' =? k) eqn:E; simpl; rewrite ?E, ?String.eqb_refl; auto.
Qed.

Lemma lookup_upsert_other {V : Type} (k k' : string) (v : V)
  (m : list (string * V)) :
  k' <> k -> lookup k' (upsert k v m) = lookup k' m.
Proof.
  intros NE. induction m as [|[k0 v0] m IH]; simpl.
  - destruct (String.eqb_spec k k'); [congruence|reflexivity].
  - destruct (String.eqb_spec k0 k) as [->|N0]; simpl.
    + destruct (String.eqb_spec k k'); [congruence|reflexivity].
    + destruct (k0 =? k'); auto.
Qed.

(** *** The open rows of the activity log *)

(** X22. [toggle] flips the row it is given and no other: the row is
    open afterwards exactly when it was closed before, every other row
    is as it was, and toggling twice restores what is shown.  This holds
    for every id, also one that names a member of [Object.prototype]. *)
Theorem toggle_flips_one_row
  (inherited : string -> bool) (openById : list (string * bool))
  (id other : string) :
  isOpen inherited (toggle inherited id openById) id
  = negb (isOpen inherited openById id)
  /\ (other <> id ->
      isOpen inherited (toggle inherited id openById) other
      = isOpen inherited openById other)
  /\ isOpen inherited (toggle inherited id (toggle inherited id openById)) id
     = isOpen inherited openById id.
Proof.
  assert (F : forall m, isOpen inherited (toggle inherited id m) id
                        = negb (isOpen inherited m id)).
  { intros m. unfold toggle. unfold isOpen at 1.
    now rewrite lookup_upsert_same. }
  split; [apply F|]. split.
  - intros NE. unfold toggle, isOpen.
    now rewrite lookup_upsert_other.
  - rewrite !F. apply negb_involutive.
Qed.

(** *** The grouping of a timeline *)

Section Timeline.

Variable Number_toString : spec_float -> string.

Local Abbreviation label := (dayLabel Number_toString).
Local Abbreviation add := (addEvent Number_toString).
Local Abbreviation group := (groupEvents Number_toString).

Local Abbreviation on_day := (on_day Number_toString).

Lemma lookup_add (m : list (string * list TimelineEvent))
  (e : TimelineEvent) (k : string) :
  lookup k (add m e) =
  if on_day k e
  then Some (match lookup k m with Some a => a | None => [] end ++ [e])%list
  else lookup k m.
Proof.
  unfold addEvent, on_day.
  destruct (String.eqb_spec (label e) k) as [<-|NE].
  - apply lookup_upsert_same.
  - apply lookup_upsert_other. congruence.
Qed.

Lemma lookup_fold (l : list TimelineEvent)
  (m : list (string * list TimelineEvent)) (k : string) :
  lookup k (fold_left add l m) =
  match lookup k m, filter (on_day k) l with
  | None, [] => None
  | None, found => Some found
  | Some a, found => Some (a ++ found)%list
  end.
Proof.
  revert m. induction l as [|e l IH]; intros m; simpl.
  - destruct (lookup k m); [now rewrite app_nil_r|reflexivity].
  - rewrite IH, lookup_add.
    destruct (on_day k e).
    + destruct (lookup k m); simpl; [now rewrite <- app_assoc|reflexivity].
    + reflexivity.
Qed.

(** X23. The map [TimelineList] builds has, under each label, exactly
    the events with that label, in the order of the sorted list, and no
    entry for a label that no event has. *)
Theorem groupEvents_by_label (sorted : list TimelineEvent) (k : string) :
  lookup k (group sorted) =
  match filter (fun event => label event =? k) sorted with
  | [] => None
  | found => Some found
  end.
Proof.
  unfold groupEvents. rewrite lookup_fold. reflexivity.
Qed.

Lemma lookup_none_not_key {V : Type} (k : string) (m : list (string * V)) :
  lookup k m = None -> ~ In k (map fst m).
Proof.
  induction m as [|[k' v] m IH]; simpl; [tauto|].
  destruct (String.eqb_spec k' k); [discriminate|].
  intros L [E|I]; [congruence|now apply IH].
Qed.

Lemma keys_upsert {V : Type} (k : string) (v : V) (m : list (string * V)) :
  map fst (upsert k v m) =
  match lookup k m with
  | Some _ => map fst m
  | None => (map fst m ++ [k])%list
  end.
Proof.
  induction m as [|[k' v'] m IH]; simpl; [reflexivity|].
  destruct (String.eqb_spec k' k) as [->|NE]; simpl; [reflexivity|].
  rewrite IH. now destruct (lookup k m).
Qed.

Lemma keys_add_NoDup (m : list (string * list TimelineEvent))
  (e : TimelineEvent) :
  NoDup (map fst m) -> NoDup (map fst (add m e)).
Proof.
  intros ND. unfold addEvent. rewrite keys_upsert.
  destruct (lookup (label e) m) eqn:L; [exact ND|].
  apply NoDup_app; [exact ND|repeat constructor; auto|].
  intros x I [<-|[]]. now apply (lookup_none_not_key _ _ L).
Qed.

Lemma flatten_upsert (k : string) (a : list TimelineEvent) (e : TimelineEvent)
  (m : list (string * list TimelineEvent)) :
  lookup k m = Some a ->
  Permutation (flatten (upsert k (a ++ [e])%list m)) (e :: flatten m).
Proof.
  unfold flatten. induction m as [|[k' v'] m IH]; simpl; [discriminate|].
  destruct (String.eqb_spec k' k) as [->|NE]; simpl.
  - intros [= ->]. rewrite <- app_assoc. simpl.
    symmetry. apply Permutation_middle.
  - intros L. rewrite (IH L). symmetry.
    apply (Permutation_middle v' (concat (map snd m)) e).
Qed.

Lemma flatten_add (m : list (string * list TimelineEvent)) (e : TimelineEvent) :
  Permutation (flatten (add m e)) (e :: flatten m).
Proof.
  unfold addEvent. destruct (lookup (label e) m) as [a|] eqn:L.
  - now apply flatten_upsert.
  - unfold flatten. simpl app.
    induction m as [|[k' v'] m IH]; simpl in *; [reflexivity|].
    destruct (String.eqb_spec k' (label e)) as [->|NE]; [discriminate|].
    simpl. rewrite (IH L). symmetry.
    apply (Permutation_middle v' (concat (map snd m)) e).
Qed.

Lemma first_key_add (m : list (string * list TimelineEvent))
  (e : TimelineEvent) (k : string) :
  hd_error (map fst m) = Some k -> hd_error (map fst (add m e)) = Some k.
Proof.
  unfold addEvent. destruct m as [|[k' v'] m]; simpl; [discriminate|].
  intros [= ->]. now destruct (k =? label e) eqn:E; simpl;
    [apply String.eqb_eq in E as <-|].
Qed.

(** X24. Grouping loses and invents nothing: the labels of the map are
    all different, the events under them are, taken together, the
    events of the list, each once, and the first entry is the one of the
    first event of the sorted list, the most recent one. *)
Theorem groupEvents_keeps_every_event (sorted : list TimelineEvent) :
  NoDup (map fst (group sorted))
  /\ Permutation (flatten (group sorted)) sorted
  /\ length (flatten (group sorted)) = length sorted
  /\ (forall first rest, sorted = first :: rest ->
        hd_error (map fst (group sorted)) = Some (label first)).
Proof.
  assert (K : forall l m, NoDup (map fst m) ->
                          NoDup (map fst (fold_left add l m))).
  { induction l as [|e l IH]; intros m ND; [exact ND|].
    simpl. apply IH. now apply keys_add_NoDup. }
  assert (P : forall l m,
            Permutation (flatten (fold_left add l m)) (flatten m ++ l)).
  { induction l as [|e l IH]; intros m; simpl.
    - now rewrite app_nil_r.
    - rewrite IH, flatten_add. simpl. apply Permutation_middle. }
  assert (H : forall l m k, hd_error (map fst m) = Some k ->
                            hd_error (map fst (fold_left add l m)) = Some k).
  { induction l as [|e l IH]; intros m k F; [exact F|].
    simpl. apply IH. now apply first_key_add. }
  split; [apply K; constructor|].
  split; [apply (P sorted [])|].
  split; [apply Permutation_length, (P sorted [])|].
  intros first rest ->. unfold groupEvents. simpl. now apply H.
Qed.

End Timeline.

(** *** Runs *)

Lemma cx_ignores_falsy_witness :
  Boolean ClassFalse = false
  /\ cx ([ClassName "rounded"] ++ ClassFalse :: [ClassName "border"])
     = cx ([ClassName "rounded"] ++ [ClassName "border"]).
Proof.
  split; [reflexivity|].
  exact (@cx_ignores_falsy [ClassName "rounded"] [ClassName "border"]
           ClassFalse eq_refl).
Defined.


Lemma fmtDuration_negative_witness :
  (-65 < 0)%Z /\ fmtDuration (Some (-65)%Z) = "-5s".
Proof.
  split; [lia|].
  exact (proj1 (@fmtDuration_negative (-65)%Z ltac:(lia))).
Defined.


Lemma detail_only_under_two_tabs_witness :
  let r := fold_left handle [Navigate reports; OpenCustomer "e1"]
                     initial_route in
  detail_of r = Some "e1"
  /\ (tab r = dashboard \/ tab r = customers).
Proof.
  cbv zeta. split; [reflexivity|].
  exact (proj1 (@detail_only_under_two_tabs
                  [Navigate reports; OpenCustomer "e1"] "e1" eq_refl)).
Defined.

End ViewProperties.
